(** * XMind to Draw.io converter: shallow embedding of [converter.py]

    The development follows the three classes of the source file:
    [XMindParser] (archive reader and root-topic lookup), [DrawioGenerator]
    (subtree heights, recursive placement, cell emission, id counter) and
    [XMindToDrawioConverter.convert_file].

    Conventions of the embedding.
    - Python [int] is [Z].  The coordinates computed with the true division
      [/ 2] are floats in Python; every subtree height is a multiple of 10
      (lemma [subtree_height_div10]), so the halves are integers and the
      model keeps them in [Z] with an exact [Z.div] (the float is that
      integer, written with a trailing [.0] by [str]).  Geometry attributes
      are therefore kept as numbers; cell ids, which are [str] of an [int],
      are kept as decimal strings.
    - The generator's mutable state is its [cell_id] counter together with
      the children of the output [root] element, to which every
      [ET.SubElement(parent, 'mxCell', ...)] appends (the [parent] argument
      is the same [root] element in every call).
    - The recursion of the XML functions goes through [find]/[findall] and
      is not structural; it is driven by a fuel argument and shown never to
      run out once the fuel exceeds the depth of the element. *)

From Stdlib Require Import ZArith List String Ascii Bool Lia FinFun.
From Stdlib Require Import DecimalString DecimalZ Permutation.
Import ListNotations.
Open Scope string_scope.
Open Scope Z_scope.

(** ** Python built-ins used by the source *)

(** [str(n)] for an [int]. *)
Definition str (n : Z) : string := NilEmpty.string_of_int (Z.to_int n).

(** [sum(...)] over a generator of ints. *)
Definition py_sum (l : list Z) : Z := fold_left Z.add l 0.

(** Truthiness of a list ([if l:]). *)
Definition truthy {A} (l : list A) : bool :=
  match l with [] => false | _ :: _ => true end.

(** ** JSON topics

    A topic of [content.json] is an object.  The model keeps what the
    converter reads from it: the ['title'] key (which may be absent) and
    the lists [topic.get('children', {}).get('attached', [])] and
    [topic.get('children', {}).get('callout', [])] (an absent key reads as
    the empty list).  Callouts are topic objects themselves.  A document
    whose topics are not of this shape (a title that is not a string, a
    [children] value that is not an object of lists) makes the source
    raise; such documents are outside the model. *)
#[warnings="-register-all"]
Inductive JsonTopic : Type :=
| JsonTopicObj (title : option string)
               (attached : list JsonTopic)
               (callout : list JsonTopic).

Definition json_title (t : JsonTopic) : option string :=
  match t with JsonTopicObj title _ _ => title end.
Definition json_attached (t : JsonTopic) : list JsonTopic :=
  match t with JsonTopicObj _ attached _ => attached end.
Definition json_callout (t : JsonTopic) : list JsonTopic :=
  match t with JsonTopicObj _ _ callout => callout end.

(** [dict.get(key, default)] on the optional title. *)
Definition get_title (t : option string) (default : string) : string :=
  match t with Some s => s | None => default end.

(** ** XML elements

    An [xml.etree.ElementTree.Element] of the parsed [content.xml]: its
    (namespace-qualified) tag, its text and its child elements.  The
    converter never reads the attributes of a source element. *)
#[warnings="-register-all"]
Inductive Element : Type :=
| Elem (tag : string) (text : option string) (children : list Element).

Definition elem_tag (e : Element) : string :=
  match e with Elem tag _ _ => tag end.
Definition elem_text (e : Element) : option string :=
  match e with Elem _ text _ => text end.
Definition elem_children (e : Element) : list Element :=
  match e with Elem _ _ children => children end.

(** [e.findall('xmap:name', namespaces)]: the direct children with that
    tag, in document order. *)
Definition findall (tag : string) (e : Element) : list Element :=
  filter (fun c => String.eqb (elem_tag c) tag) (elem_children e).

(** [e.find('xmap:name', namespaces)]: the first such child, or [None]. *)
Definition find (tag : string) (e : Element) : option Element :=
  hd_error (findall tag e).

(** Number of element levels below and including [e]. *)
Fixpoint depth (e : Element) : nat :=
  match e with
  | Elem _ _ children =>
      S ((fix max_depth (l : list Element) : nat :=
            match l with
            | [] => O
            | c :: rest => Nat.max (depth c) (max_depth rest)
            end) children)
  end.

(** The prefix [xmap] of the parser's [namespaces] dictionary. *)
Definition xmap (name : string) : string :=
  "{urn:xmind:xmap:xmlns:content:2.0}" ++ name.

(** ** Output cells *)

Inductive mxGeometry : Type :=
| BoxGeometry (x y width height : Z)   (* x, y, width, height, as="geometry" *)
| RelativeGeometry.                     (* relative="1", as="geometry" *)

(** An [mxCell] element: its attribute dictionary (an absent attribute is
    [None]) and its geometry child. *)
Record mxCell : Type := mkCell {
  attr_id : string;
  attr_value : option string;
  attr_style : option string;
  attr_vertex : option string;
  attr_edge : option string;
  attr_parent : option string;
  attr_source : option string;
  attr_target : option string;
  geometry : option mxGeometry
}.

(** ** DrawioGenerator *)

Module DrawioGenerator.

(** Constants of [__init__]. *)
Definition x_spacing : Z := 250.
Definition min_y_spacing : Z := 120.
Definition box_width : Z := 120.
Definition box_height : Z := 60.
Definition callout_width : Z := 200.
Definition callout_height : Z := 60.
Definition callout_offset_x : Z := -50.
Definition callout_offset_y : Z := -80.
Definition callout_spacing : Z := 70.

(** The mutable state: the id counter and the cells appended to [root]. *)
Record state : Type := mkState {
  cell_id : Z;
  root : list mxCell
}.

(** [DrawioGenerator()]: the counter starts at 2. *)
Definition init : state := mkState 2 [].

Definition append (c : mxCell) (st : state) : state :=
  mkState (cell_id st) (root st ++ [c]).

Definition next_id (st : state) : state :=
  mkState (cell_id st + 1) (root st).

Definition _get_style (level : nat) : string :=
  match level with
  | O => "rounded=1;whiteSpace=wrap;html=1;fillColor=#dae8fc;strokeColor=#6c8ebf;fontStyle=1;fontSize=14;"
  | S O => "rounded=1;whiteSpace=wrap;html=1;fillColor=#dae8fc;strokeColor=#6c8ebf;fontSize=12;"
  | _ => "rounded=1;whiteSpace=wrap;html=1;fillColor=#dae8fc;strokeColor=#6c8ebf;fontSize=11;"
  end.

Definition connector_style : string :=
  "edgeStyle=entityRelationEdgeStyle;rounded=1;orthogonalLoop=1;jettySize=auto;html=1;curved=1;strokeColor=#6c8ebf;strokeWidth=1;".

Definition dashed_style : string :=
  "edgeStyle=none;rounded=1;orthogonalLoop=1;jettySize=auto;html=1;dashed=1;strokeColor=#d6b656;strokeWidth=1;".

Definition callout_style : string :=
  "shape=note;whiteSpace=wrap;html=1;fillColor=#fff2cc;strokeColor=#d6b656;fontSize=9;align=left;verticalAlign=top;spacing=8;spacingLeft=12;spacingRight=12;spacingTop=8;backgroundOutline=1;size=12;".

(** The four element shapes the generator appends. *)
Definition topic_cell (current_id title : string) (level : nat) (x y : Z) : mxCell :=
  mkCell current_id (Some title) (Some (_get_style level)) (Some "1") None
         (Some "1") None None (Some (BoxGeometry x y box_width box_height)).

Definition callout_cell (current_id title : string) (x y : Z) : mxCell :=
  mkCell current_id (Some title) (Some callout_style) (Some "1") None
         (Some "1") None None
         (Some (BoxGeometry x y callout_width callout_height)).

Definition dashed_cell (connector_id source_id target_id : string) : mxCell :=
  mkCell connector_id (Some "") (Some dashed_style) None (Some "1")
         (Some "1") (Some source_id) (Some target_id) (Some RelativeGeometry).

Definition connector_cell (connector_id source_id target_id : string) : mxCell :=
  mkCell connector_id (Some "") (Some connector_style) None (Some "1")
         (Some "1") (Some source_id) (Some target_id) (Some RelativeGeometry).

(** [_create_connector] *)
Definition _create_connector (source_id target_id : string) (st : state) : state :=
  let connector_id := str (cell_id st) in
  let st := next_id st in
  append (connector_cell connector_id source_id target_id) st.

(** [_calculate_subtree_height] *)
Fixpoint _calculate_subtree_height (topic : JsonTopic) : Z :=
  match topic with
  | JsonTopicObj _ attached_topics callout_topics =>
      let base_height := min_y_spacing in
      let base_height :=
        if truthy callout_topics
        then base_height + Z.of_nat (List.length callout_topics) * callout_spacing
        else base_height in
      match attached_topics with
      | [] => base_height
      | _ :: _ =>
          let total_child_height :=
            (fix loop (children : list JsonTopic) (total_child_height : Z) : Z :=
               match children with
               | [] => total_child_height
               | child :: rest =>
                   loop rest (total_child_height + _calculate_subtree_height child)
               end) attached_topics 0 in
          Z.max total_child_height base_height
      end
  end.

(** [_convert_json_callout] *)
Definition _convert_json_callout (callout : JsonTopic) (parent_id : string)
           (x y : Z) (st : state) : string * state :=
  let title := get_title (json_title callout) "" in
  let current_id := str (cell_id st) in
  let st := next_id st in
  let st := append (callout_cell current_id title x y) st in
  let connector_id := str (cell_id st) in
  let st := next_id st in
  let st := append (dashed_cell connector_id parent_id current_id) st in
  (current_id, st).

(** The [for idx, callout in enumerate(callout_topics)] loop of
    [_convert_json_topic]. *)
Fixpoint callout_loop (callout_topics : list JsonTopic) (idx : Z)
         (current_id : string) (x y : Z) (st : state) : state :=
  match callout_topics with
  | [] => st
  | callout :: rest =>
      let callout_x := x + callout_offset_x in
      let callout_y := y + callout_offset_y - (idx * callout_spacing) in
      let '(_, st) := _convert_json_callout callout current_id callout_x callout_y st in
      callout_loop rest (idx + 1) current_id x y st
  end.

(** The [for child_topic in attached_topics] loop of
    [_convert_json_topic]; [convert] is the method itself. *)
Section ChildLoop.
Variable convert : JsonTopic -> string -> Z -> Z -> nat -> state
                   -> string * state.
Variable current_id : string.
Variable x : Z.
Variable level : nat.

Fixpoint json_child_loop (attached_topics : list JsonTopic) (current_y : Z)
         (st : state) : state :=
  match attached_topics with
  | [] => st
  | child_topic :: rest =>
      let child_height := _calculate_subtree_height child_topic in
      let child_x := x + x_spacing in
      let child_y := current_y + (child_height / 2) in
      let '(child_id, st) :=
        convert child_topic current_id child_x child_y (S level) st in
      let st := _create_connector current_id child_id st in
      json_child_loop rest (current_y + child_height) st
  end.
End ChildLoop.

(** [_convert_json_topic] *)
Fixpoint _convert_json_topic (topic : JsonTopic) (parent_id : string)
         (x y : Z) (level : nat) (st : state) : string * state :=
  match topic with
  | JsonTopicObj title attached_topics callout_topics =>
      let title := get_title title "Topic" in
      let current_id := str (cell_id st) in
      let st := next_id st in
      let st := append (topic_cell current_id title level x y) st in
      let st :=
        if truthy attached_topics then
          let total_height :=
            py_sum (map _calculate_subtree_height attached_topics) in
          let current_y := y - (total_height / 2) in
          json_child_loop _convert_json_topic current_id x level
                          attached_topics current_y st
        else st in
      let st := callout_loop callout_topics 0 current_id x y st in
      (current_id, st)
  end.

(** The list [child_topics] that both XML functions collect from a
    [children] element: every [topic] inside any [topics] container. *)
Definition collect_child_topics (children : Element) : list Element :=
  flat_map (findall (xmap "topic")) (findall (xmap "topics") children).

(** [sum(f(child) for child in child_topics)] where [f] may fail. *)
Fixpoint sum_heights (f : Element -> option Z) (l : list Element) (acc : Z)
  : option Z :=
  match l with
  | [] => Some acc
  | child :: rest =>
      match f child with
      | Some h => sum_heights f rest (acc + h)
      | None => None
      end
  end.

(** [_calculate_xml_subtree_height]; [None] only when the fuel runs out. *)
Fixpoint _calculate_xml_subtree_height (fuel : nat) (topic : Element)
  : option Z :=
  match fuel with
  | O => None
  | S fuel =>
      match find (xmap "children") topic with
      | None => Some min_y_spacing
      | Some children =>
          let child_topics := collect_child_topics children in
          if negb (truthy child_topics) then Some min_y_spacing
          else
            match sum_heights (_calculate_xml_subtree_height fuel)
                              child_topics 0 with
            | Some total_height => Some (Z.max total_height min_y_spacing)
            | None => None
            end
      end
  end.

(** The title expression of [_convert_xml_topic]. *)
Definition xml_title (topic : Element) : string :=
  match find (xmap "title") topic with
  | Some title_elem =>
      match elem_text title_elem with
      | Some s => if String.eqb s "" then "Topic" else s
      | None => "Topic"
      end
  | None => "Topic"
  end.

(** The [for child_topic in child_topics] loop of [_convert_xml_topic];
    [convert] and [height] are the two recursive methods. *)
Fixpoint xml_child_loop
         (convert : Element -> string -> Z -> Z -> nat -> state
                    -> option (string * state))
         (height : Element -> option Z)
         (child_topics : list Element) (current_id : string)
         (x current_y : Z) (level : nat) (st : state) : option state :=
  match child_topics with
  | [] => Some st
  | child_topic :: rest =>
      match height child_topic with
      | None => None
      | Some child_height =>
          let child_x := x + x_spacing in
          let child_y := current_y + (child_height / 2) in
          match convert child_topic current_id child_x child_y (S level) st with
          | None => None
          | Some (child_id, st) =>
              let st := _create_connector current_id child_id st in
              xml_child_loop convert height rest current_id
                             x (current_y + child_height) level st
          end
      end
  end.

(** [_convert_xml_topic]; [None] only when the fuel runs out. *)
Fixpoint _convert_xml_topic (fuel : nat) (topic : Element) (parent_id : string)
         (x y : Z) (level : nat) (st : state) : option (string * state) :=
  match fuel with
  | O => None
  | S fuel =>
      let title := xml_title topic in
      let current_id := str (cell_id st) in
      let st := next_id st in
      let st := append (topic_cell current_id title level x y) st in
      match find (xmap "children") topic with
      | None => Some (current_id, st)
      | Some children =>
          let child_topics := collect_child_topics children in
          if truthy child_topics then
            match sum_heights (_calculate_xml_subtree_height fuel)
                              child_topics 0 with
            | None => None
            | Some total_height =>
                let current_y := y - (total_height / 2) in
                match xml_child_loop (_convert_xml_topic fuel)
                                     (_calculate_xml_subtree_height fuel)
                                     child_topics current_id
                                     x current_y level st with
                | Some st => Some (current_id, st)
                | None => None
                end
            end
          else Some (current_id, st)
      end
  end.

(** The root topic handed to [create_drawio_xml] together with the
    [is_json] flag that tells which of the two representations it is. *)
Inductive RootTopic : Type :=
| JsonRoot (topic : JsonTopic)
| XmlRoot (topic : Element).

(** The output tree: [mxfile] > [diagram] > [mxGraphModel] > [root]. *)
Record mxfile : Type := mkFile {
  host : string;
  version : string;
  diagram_name : string;
  model_dx : string;
  model_dy : string;
  model_grid : string;
  model_gridSize : string;
  model_guides : string;
  cells : list mxCell
}.

Definition default_cell_0 : mxCell :=
  mkCell "0" None None None None None None None None.
Definition default_cell_1 : mxCell :=
  mkCell "1" None None None None (Some "0") None None None.

Definition wrap (cells : list mxCell) : mxfile :=
  mkFile "app.diagrams.net" "21.0.0" "Page-1" "1426" "782" "1" "10" "1" cells.

(** [create_drawio_xml], run on a generator whose counter is [self_cell_id].
    The XML recursion gets the depth of the root topic as fuel. *)
Definition create_drawio_xml (self_cell_id : Z) (root_topic : option RootTopic)
  : option mxfile :=
  let st := mkState self_cell_id [default_cell_0; default_cell_1] in
  match root_topic with
  | None => Some (wrap (root st))
  | Some (JsonRoot topic) =>
      let '(_, st) := _convert_json_topic topic "1" 400 300 0 st in
      Some (wrap (root st))
  | Some (XmlRoot topic) =>
      match _convert_xml_topic (depth topic) topic "1" 400 300 0 st with
      | Some (_, st) => Some (wrap (root st))
      | None => None
      end
  end.

(** [DrawioGenerator()] followed by [create_drawio_xml]. *)
Definition generate (root_topic : RootTopic) : option mxfile :=
  create_drawio_xml (cell_id init) (Some root_topic).

End DrawioGenerator.

Import DrawioGenerator.

(** ** XMindParser *)

Module XMindParser.

(** A raised exception, by its message. *)
Definition exn : Type := string.

(** The bytes of an archive entry. *)
Definition bytes : Type := string.

(** What [zipfile.ZipFile(path, 'r')] gives: an exception, or the entries
    of the archive by name. *)
Definition archive : Type := (exn + list (string * bytes))%type.

Definition namelist (zip_file : list (string * bytes)) : list string :=
  map fst zip_file.

(** [zip_file.read(name)]: the archive resolves a name to its last entry. *)
Definition read (name : string) (zip_file : list (string * bytes)) : bytes :=
  match List.find (fun e => String.eqb (fst e) name) (rev zip_file) with
  | Some e => snd e
  | None => ""
  end.

Definition contains (name : string) (names : list string) : bool :=
  existsb (String.eqb name) names.

(** A sheet record of [content.json]: what [first_sheet.get('rootTopic')]
    returns. *)
Record Sheet : Type := mkSheet { rootTopic : option JsonTopic }.

(** A parsed [content.json] other than [null]. *)
Inductive JsonDoc : Type :=
| JsonList (sheets : list Sheet)
| JsonNotList.

(** The value [parse] returns when it is not [None]. *)
Inductive RawDocument : Type :=
| RawJson (doc : JsonDoc)
| RawXml (doc : Element).

(** The parser object after [parse]: the returned value, the
    [is_json_format] field and the lines printed. *)
Record outcome : Type := mkOutcome {
  returned : option RawDocument;
  is_json_format : bool;
  printed : list string
}.

Section Parse.

(** [json.loads]: raises, or returns the document ([None] for JSON
    [null]).  [ET.fromstring]: raises, or returns the root element. *)
Variable json_loads : bytes -> exn + option JsonDoc.
Variable fromstring : bytes -> exn + Element.

Definition error_message (xmind_path : string) (e : exn) : string :=
  "Error parsing " ++ xmind_path ++ ": " ++ e.

(** [XMindParser(xmind_path).parse()] *)
Definition parse (xmind_path : string) (a : archive) : outcome :=
  match a with
  | inl e => mkOutcome None false [error_message xmind_path e]
  | inr zip_file =>
      if contains "content.json" (namelist zip_file) then
        let content := read "content.json" zip_file in
        match json_loads content with
        | inr doc => mkOutcome (option_map RawJson doc) true []
        | inl e => mkOutcome None true [error_message xmind_path e]
        end
      else if contains "content.xml" (namelist zip_file) then
        let content := read "content.xml" zip_file in
        match fromstring content with
        | inr doc => mkOutcome (Some (RawXml doc)) false []
        | inl e => mkOutcome None false [error_message xmind_path e]
        end
      else mkOutcome None false []
  end.

End Parse.

(** Descendants of an element in document order (what [.//] ranges over). *)
Fixpoint descendants (e : Element) : list Element :=
  match e with
  | Elem _ _ children =>
      (fix walk (l : list Element) : list Element :=
         match l with
         | [] => []
         | c :: rest => c :: descendants c ++ walk rest
         end) children
  end.

(** [get_root_topic] *)
Definition get_root_topic (root : RawDocument) : option RootTopic :=
  match root with
  | RawJson doc =>
      match doc with
      | JsonList (first_sheet :: _) => option_map JsonRoot (rootTopic first_sheet)
      | _ => None
      end
  | RawXml doc =>
      match List.find (fun e => String.eqb (elem_tag e) (xmap "sheet"))
                      (descendants doc) with
      | Some sheet => option_map XmlRoot (find (xmap "topic") sheet)
      | None => None
      end
  end.

End XMindParser.

(** ** XMindToDrawioConverter *)

Module XMindToDrawioConverter.

Import XMindParser.

(** An input file: [xmind_path.name], [xmind_path.stem] and what opening
    it as an archive gives. *)
Record xmind_file : Type := mkInput {
  name : string;
  stem : string;
  content : archive
}.

(** The output directory: the documents written, by path. *)
Definition output_dir : Type := list (string * mxfile).

(** [tree.write(output_path, ...)]: creates or replaces the file. *)
Definition write (output_path : string) (doc : mxfile) (out : output_dir)
  : output_dir :=
  (output_path, doc)
    :: filter (fun e => negb (String.eqb (fst e) output_path)) out.

(** [print(line)] after the lines printed so far. *)
Definition say (log : list string) (line : string) : list string :=
  (log ++ [line])%list.

Section ConvertFile.

Variable json_loads : bytes -> exn + option JsonDoc.
Variable fromstring : bytes -> exn + Element.

(** [convert_file]: the output directory afterwards and the lines printed
    (without the blank line before the first and the check mark of the
    last); [None] when the generator runs out of fuel.  The document
    written is the tree itself: [ET.indent] and the serializer are not
    modelled. *)
Definition convert_file (f : xmind_file) (out : output_dir)
  : option (output_dir * list string) :=
  let log := ["Converting: " ++ name f] in
  let parser := parse json_loads fromstring (name f) (content f) in
  let log := (log ++ printed parser)%list in
  match returned parser with
  | None => Some (out, say log ("  Failed to parse " ++ name f))
  | Some root =>
      match get_root_topic root with
      | None => Some (out, say log ("  No root topic found in " ++ name f))
      | Some root_topic =>
          match generate root_topic with
          | None => None
          | Some drawio_xml =>
              let output_path := stem f ++ ".drawio" in
              Some (write output_path drawio_xml out,
                    say log ("  Saved to: " ++ output_path))
          end
      end
  end.

End ConvertFile.

Section ConvertAll.

Variable json_loads : bytes -> exn + option JsonDoc.
Variable fromstring : bytes -> exn + Element.

(** The [for xmind_file in xmind_files] loop of [convert_all]. *)
Fixpoint convert_each (xmind_files : list xmind_file) (out : output_dir)
         (log : list string) : option (output_dir * list string) :=
  match xmind_files with
  | [] => Some (out, log)
  | xmind_file :: rest =>
      match convert_file json_loads fromstring xmind_file out with
      | None => None
      | Some (out, lines) => convert_each rest out (log ++ lines)%list
      end
  end.

(** [convert_all], on the list [xmind_files] that
    [self.input_dir.glob('*.xmind')] gives and the content [out] of the
    output directory (empty when [mkdir] has just created it): the
    content afterwards and the lines printed. *)
Definition convert_all (input_dir : string) (xmind_files : list xmind_file)
           (out : output_dir) : option (output_dir * list string) :=
  if negb (truthy xmind_files) then
    Some (out,
          ["No XMind files found in '" ++ input_dir ++ "'";
           "Please add XMind files to the xmindInput folder and run again."])
  else
    convert_each xmind_files out
      ["Found " ++ str (Z.of_nat (List.length xmind_files))
                ++ " XMind file(s)"].

End ConvertAll.

End XMindToDrawioConverter.

(** ** The checks of [test_converter.py]

    [ConverterTests] runs on the document read back from the written
    file; the checks are modelled on the tree the converter built, whose
    [mxCell] elements are the [cells] of the document.  A check returns
    [true] where the method returns [True]. *)

Module ConverterTests.

(** [root.findall('.//mxCell[@edge="1"]')] and the same for [vertex]. *)
Definition find_edges (doc : mxfile) : list mxCell :=
  filter (fun c => match attr_edge c with
                   | Some s => String.eqb s "1"
                   | None => false
                   end) (cells doc).

Definition find_vertices (doc : mxfile) : list mxCell :=
  filter (fun c => match attr_vertex c with
                   | Some s => String.eqb s "1"
                   | None => false
                   end) (cells doc).

(** [not edge.get(key)]: the attribute is absent or empty. *)
Definition falsy (a : option string) : bool :=
  match a with
  | Some s => String.eqb s ""
  | None => true
  end.

(** [test_connectors_present] *)
Definition test_connectors_present (doc : mxfile) : bool :=
  let edges := find_edges doc in
  let vertices := find_vertices doc in
  if Nat.eqb (List.length edges) 0 && Nat.ltb 2 (List.length vertices)
  then false
  else
    let invalid_edges :=
      filter (fun edge => falsy (attr_source edge) || falsy (attr_target edge))
             edges in
    if truthy invalid_edges then false else true.

(** The dictionary [test_no_overlapping_cells] keeps of a vertex with a
    geometry child: [x], [y], [width], [height], with the defaults of
    [geom.get] for a geometry that lacks them. *)
Definition box (c : mxCell) : option (Z * Z * Z * Z) :=
  match geometry c with
  | Some (BoxGeometry x y width height) => Some (x, y, width, height)
  | Some RelativeGeometry => Some (0, 0, 120, 60)
  | None => None
  end.

Definition boxes (doc : mxfile) : list (Z * Z * Z * Z) :=
  flat_map (fun c => match box c with Some b => [b] | None => [] end)
           (find_vertices doc).

(** The condition under which a pair is reported: the boxes overlap and
    the corners are closer than 80 across and 40 down.  The halves of the
    test are compared doubled. *)
Definition reported (b1 b2 : Z * Z * Z * Z) : bool :=
  let '(x1, y1, w1, h1) := b1 in
  let '(x2, y2, w2, h2) := b2 in
  (2 * Z.abs (x1 - x2) <? w1 + w2) && (2 * Z.abs (y1 - y2) <? h1 + h2)
  && (Z.abs (x1 - x2) <? 80) && (Z.abs (y1 - y2) <? 40).

(** The pairs [cell1], [cell2 in cells[i+1:]] that are reported. *)
Fixpoint overlaps (cells : list (Z * Z * Z * Z))
  : list ((Z * Z * Z * Z) * (Z * Z * Z * Z)) :=
  match cells with
  | [] => []
  | cell1 :: rest =>
      (map (fun cell2 => (cell1, cell2)) (filter (reported cell1) rest)
       ++ overlaps rest)%list
  end.

(** [test_no_overlapping_cells] *)
Definition test_no_overlapping_cells (doc : mxfile) : bool :=
  negb (truthy (overlaps (boxes doc))).

(** The loop of [test_no_duplicate_ids] over the ids: the sets [seen]
    and [duplicates] as lists. *)
Fixpoint find_duplicates (ids seen duplicates : list string) : list string :=
  match ids with
  | [] => duplicates
  | cell_id :: rest =>
      let duplicates :=
        if existsb (String.eqb cell_id) seen
        then cell_id :: duplicates else duplicates in
      find_duplicates rest (cell_id :: seen) duplicates
  end.

(** [test_no_duplicate_ids] *)
Definition test_no_duplicate_ids (doc : mxfile) : bool :=
  let ids := map attr_id (cells doc) in
  negb (truthy (find_duplicates ids [] [])).

(** [test_reserved_ids] *)
Definition test_reserved_ids (doc : mxfile) : bool :=
  let id_0_cells := filter (fun c => String.eqb (attr_id c) "0") (cells doc) in
  let id_1_cells := filter (fun c => String.eqb (attr_id c) "1") (cells doc) in
  if negb (Nat.eqb (List.length id_0_cells) 1) then false
  else if negb (Nat.eqb (List.length id_1_cells) 1) then false
  else
    match id_1_cells with
    | first :: _ =>
        match attr_parent first with
        | Some p => String.eqb p "0"
        | None => false
        end
    | [] => false
    end.

End ConverterTests.

(** * Vocabulary of the properties

    What the statements below are written with: the cells one call
    appends, the normalized view of an XML topic, the kinds of cells and
    their counts, and the functions that follow the wording of the
    claims. *)

Definition base_height (callouts : list JsonTopic) : Z :=
  if truthy callouts
  then min_y_spacing + Z.of_nat (List.length callouts) * callout_spacing
  else min_y_spacing.

(** Number of cells one call of [_convert_json_topic] appends. *)
Fixpoint cell_count (t : JsonTopic) : nat :=
  match t with
  | JsonTopicObj _ attached callout =>
      S (list_sum (map (fun c => S (cell_count c)) attached)
         + 2 * List.length callout)
  end.

Definition children_count (l : list JsonTopic) : nat :=
  list_sum (map (fun c => S (cell_count c)) l).

(** The cells a call appends when the counter is [n]: the root list it
    leaves when started on an empty one. *)
Definition emitted (t : JsonTopic) (parent_id : string) (x y : Z)
           (level : nat) (n : Z) : list mxCell :=
  root (snd (_convert_json_topic t parent_id x y level (mkState n []))).

(** The cells of the children loop, by the calls it makes. *)
Fixpoint children_cells (current_id : string) (x : Z) (level : nat)
         (l : list JsonTopic) (current_y : Z) (n : Z) : list mxCell :=
  match l with
  | [] => []
  | c :: rest =>
      let h := _calculate_subtree_height c in
      (emitted c current_id (x + x_spacing) (current_y + h / 2) (S level) n
       ++ connector_cell (str (n + Z.of_nat (cell_count c))) current_id (str n)
       :: children_cells current_id x level rest (current_y + h)
                         (n + Z.of_nat (cell_count c) + 1))%list
  end.

(** The cells of the callout loop. *)
Fixpoint callout_cells (current_id : string) (x y : Z)
         (l : list JsonTopic) (idx : Z) (n : Z) : list mxCell :=
  match l with
  | [] => []
  | k :: rest =>
      callout_cell (str n) (get_title (json_title k) "")
                   (x + callout_offset_x)
                   (y + callout_offset_y - idx * callout_spacing)
      :: dashed_cell (str (n + 1)) current_id (str n)
      :: callout_cells current_id x y rest (idx + 1) (n + 2)
  end.

(** A call behaves as the frame rule says: it returns the id it allocated
    first, advances the counter by the number of cells, and appends. *)
Definition frames (t : JsonTopic) : Prop :=
  forall parent_id x y level st,
    _convert_json_topic t parent_id x y level st =
    (str (cell_id st),
     mkState (cell_id st + Z.of_nat (cell_count t))
             (root st ++ emitted t parent_id x y level (cell_id st))).

(** The attached children of an XML topic: the [child_topics] list of the
    two XML functions (empty when there is no [children] element). *)
Definition xml_attached (topic : Element) : list Element :=
  match find (xmap "children") topic with
  | Some children => collect_child_topics children
  | None => []
  end.

(** The uniform view of an XML topic: the title expression of
    [_convert_xml_topic], the collected child topics, and no callouts. *)
Fixpoint xml_view (fuel : nat) (topic : Element) : JsonTopic :=
  match fuel with
  | O => JsonTopicObj (Some (xml_title topic)) [] []
  | S fuel =>
      JsonTopicObj (Some (xml_title topic))
                   (map (xml_view fuel) (xml_attached topic)) []
  end.

Definition normalize (topic : Element) : JsonTopic :=
  xml_view (depth topic) topic.

(** What a cell of the output is, read off its attributes as a reader of
    the document would: a vertex is a callout when it has the note style,
    an edge is a callout connector when it has the dashed style. *)
Inductive kind : Type :=
| TopicVertex | Connector | CalloutVertex | DashedConnector | Structural.

Definition is_attr (a : option string) (v : string) : bool :=
  match a with Some s => String.eqb s v | None => false end.

Definition cell_kind (c : mxCell) : kind :=
  if is_attr (attr_vertex c) "1" then
    if is_attr (attr_style c) callout_style then CalloutVertex else TopicVertex
  else if is_attr (attr_edge c) "1" then
    if is_attr (attr_style c) dashed_style then DashedConnector else Connector
  else Structural.

Definition kind_eqb (a b : kind) : bool :=
  match a, b with
  | TopicVertex, TopicVertex | Connector, Connector
  | CalloutVertex, CalloutVertex | DashedConnector, DashedConnector
  | Structural, Structural => true
  | _, _ => false
  end.

(** Number of cells of kind [k] in a list of cells. *)
Definition count_kind (k : kind) (l : list mxCell) : nat :=
  List.length (filter (fun c => kind_eqb (cell_kind c) k) l).

(** The order in which one call emits: the topic, then for each attached
    child its whole subtree followed by the connector to it, then for
    each callout its vertex followed by its dashed connector. *)
Fixpoint emission_order (t : JsonTopic) : list kind :=
  match t with
  | JsonTopicObj _ attached callout =>
      TopicVertex
      :: (flat_map (fun c => emission_order c ++ [Connector])%list attached
          ++ flat_map (fun _ => [CalloutVertex; DashedConnector]) callout)%list
  end.

(** The ids [n, n+1, ..., n+k-1] of a counter that starts at [n]. *)
Definition counter_from (n : Z) (k : nat) : list Z :=
  map (fun i => n + Z.of_nat i) (seq 0 k).

(** The four shapes a generated cell can have. *)
Inductive generated_shape : mxCell -> Prop :=
| shape_topic id title level x y :
    generated_shape (topic_cell id title level x y)
| shape_connector id source target :
    generated_shape (connector_cell id source target)
| shape_callout id title x y :
    generated_shape (callout_cell id title x y)
| shape_dashed id source target :
    generated_shape (dashed_cell id source target).

(** The edges of [l] refer to vertices of [sup]: the source and the target
    of every edge are ids of vertex cells there. *)
Definition is_vertex (c : mxCell) : bool := is_attr (attr_vertex c) "1".
Definition is_edge (c : mxCell) : bool := is_attr (attr_edge c) "1".

Definition edges_within (sup l : list mxCell) : Prop :=
  forall c, In c l -> is_edge c = true ->
    exists v w,
      In v sup /\ In w sup /\ is_vertex v = true /\ is_vertex w = true /\
      attr_source c = Some (attr_id v) /\ attr_target c = Some (attr_id w).

(** The uniform topic a root stands for. *)
Definition root_view (root_topic : RootTopic) : JsonTopic :=
  match root_topic with
  | JsonRoot topic => topic
  | XmlRoot topic => normalize topic
  end.

(** The generated cells of a document: those after the two default ones. *)
Definition generated (doc : mxfile) : list mxCell := skipn 2 (cells doc).

Definition count_in (k : kind) (ks : list kind) : nat :=
  List.length (filter (fun k' => kind_eqb k' k) ks).

(** Topics reachable from [t] through attached children, [t] included. *)
Fixpoint topic_count (t : JsonTopic) : nat :=
  match t with
  | JsonTopicObj _ attached _ => S (list_sum (map topic_count attached))
  end.

(** Attached parent-child pairs below [t]. *)
Fixpoint edge_count (t : JsonTopic) : nat :=
  match t with
  | JsonTopicObj _ attached _ =>
      list_sum (map (fun c => S (edge_count c)) attached)
  end.

(** Callouts of the topics reachable from [t]. *)
Fixpoint callout_count (t : JsonTopic) : nat :=
  match t with
  | JsonTopicObj _ attached callout =>
      (List.length callout + list_sum (map callout_count attached))%nat
  end.

Definition expected_count (k : kind) (t : JsonTopic) : nat :=
  match k with
  | TopicVertex => topic_count t
  | Connector => edge_count t
  | CalloutVertex | DashedConnector => callout_count t
  | Structural => O
  end.

(** What the order of allocation is stated on: the kind of a cell, its
    id, and the ids it refers to. *)
Definition entry : Type :=
  (kind * string * option string * option string)%type.

Definition describe (c : mxCell) : entry :=
  (cell_kind c, attr_id c, attr_source c, attr_target c).

(** The allocation of ids to the attached children of a topic whose id is
    [current_id], the counter being [m]: each child's subtree, then the
    connector from the topic to that child. *)
Section ChildrenTrace.
Variable trace : JsonTopic -> Z -> list entry.
Variable current_id : string.

Fixpoint children_trace (l : list JsonTopic) (m : Z) : list entry :=
  match l with
  | [] => []
  | c :: rest =>
      (trace c m
       ++ (Connector, str (m + Z.of_nat (cell_count c)),
           Some current_id, Some (str m))
       :: children_trace rest (m + Z.of_nat (cell_count c) + 1))%list
  end.
End ChildrenTrace.

(** The allocation of ids to the callouts of that topic: each callout's
    vertex, then the dashed connector from the topic to it. *)
Fixpoint callouts_trace (current_id : string) (l : list JsonTopic) (m : Z)
  : list entry :=
  match l with
  | [] => []
  | _ :: rest =>
      (CalloutVertex, str m, None, None)
      :: (DashedConnector, str (m + 1), Some current_id, Some (str m))
      :: callouts_trace current_id rest (m + 2)
  end.

(** The allocation of ids to a topic when the counter is [n]: its vertex,
    its attached children, its callouts. *)
Fixpoint emission_trace (t : JsonTopic) (n : Z) : list entry :=
  match t with
  | JsonTopicObj _ attached callout =>
      (TopicVertex, str n, None, None)
      :: (children_trace emission_trace (str n) attached (n + 1)
          ++ callouts_trace (str n) callout
               (n + 1 + Z.of_nat (children_count attached)))%list
  end.

(** The order claim C1 words: the topic, the connector to its parent when
    it has one, its callouts with their dashed connectors, and then the
    subtrees of its attached children. *)
Fixpoint claimed_order (has_parent : bool) (t : JsonTopic) : list kind :=
  match t with
  | JsonTopicObj _ attached callout =>
      TopicVertex
      :: ((if has_parent then [Connector] else [])
          ++ flat_map (fun _ => [CalloutVertex; DashedConnector]) callout
          ++ flat_map (claimed_order true) attached)%list
  end.

(** A root with one attached child and one callout. *)
Definition child_and_callout : JsonTopic :=
  JsonTopicObj (Some "root")
    [JsonTopicObj (Some "child") [] []]
    [JsonTopicObj (Some "note") [] []].

(** The height C3 words, from the number of callouts of the topic and the
    heights of its attached children. *)
Definition spec_height (callouts : nat) (child_heights : list Z) : Z :=
  let base :=
    if (0 <? callouts)%nat then 120 + Z.of_nat callouts * 70 else 120 in
  match child_heights with
  | [] => base
  | _ :: _ => Z.max base (py_sum child_heights)
  end.

(** The height the XML function returns for a topic. *)
Definition xml_height (topic : Element) : Z :=
  match _calculate_xml_subtree_height (depth topic) topic with
  | Some h => h
  | None => 0
  end.

(** The positions C4 words for the attached children of a topic at
    [(x, y)], from their heights: a cursor that starts half the total
    height above [y] and advances by each child's height. *)
Fixpoint place_children (x cursor : Z) (heights : list Z) : list (Z * Z) :=
  match heights with
  | [] => []
  | h :: rest => (x + 250, cursor + h / 2) :: place_children x (cursor + h) rest
  end.

Definition child_positions (x y : Z) (heights : list Z) : list (Z * Z) :=
  place_children x (y - py_sum heights / 2) heights.

(** The positions C4 words for the callouts of a topic at [(x, y)]. *)
Definition callout_positions (x y : Z) (callouts : nat) : list (Z * Z) :=
  map (fun i => (x - 50, y - 80 - Z.of_nat i * 70)) (seq 0 callouts).

(** The cells of the children of a topic when each child is converted at
    the position listed for it (each followed by its connector), and the
    cells of its callouts at the positions listed for them. *)
Fixpoint children_at (current_id : string) (level : nat)
         (l : list JsonTopic) (positions : list (Z * Z)) (n : Z)
  : list mxCell :=
  match l, positions with
  | c :: rest, (cx, cy) :: more =>
      (emitted c current_id cx cy (S level) n
       ++ connector_cell (str (n + Z.of_nat (cell_count c))) current_id (str n)
       :: children_at current_id level rest more
                      (n + Z.of_nat (cell_count c) + 1))%list
  | _, _ => []
  end.

Fixpoint callouts_at (current_id : string) (l : list JsonTopic)
         (positions : list (Z * Z)) (n : Z) : list mxCell :=
  match l, positions with
  | k :: rest, (cx, cy) :: more =>
      callout_cell (str n) (get_title (json_title k) "") cx cy
      :: dashed_cell (str (n + 1)) current_id (str n)
      :: callouts_at current_id rest more (n + 2)
  | _, _ => []
  end.

(** Scenario A of the specification: three children, the second with two
    children of its own, the first and third with one callout each. *)
Definition scenario_A : JsonTopic :=
  JsonTopicObj (Some "Test Project")
    [ JsonTopicObj (Some "Module A") []
        [JsonTopicObj (Some "This is a test annotation") [] []];
      JsonTopicObj (Some "Module B")
        [ JsonTopicObj (Some "Sub-module B1") [] [];
          JsonTopicObj (Some "Sub-module B2") [] [] ] [];
      JsonTopicObj (Some "Module C") []
        [JsonTopicObj (Some "Second annotation") [] []] ]
    [].

(** Scenario B of the specification: a root with two children, the second
    with one child. *)
Definition scenario_B : Element :=
  Elem (xmap "topic") None
    [ Elem (xmap "title") (Some "XML Format Test") [];
      Elem (xmap "children") None
        [ Elem (xmap "topics") None
            [ Elem (xmap "topic") None
                [Elem (xmap "title") (Some "Topic A") []];
              Elem (xmap "topic") None
                [ Elem (xmap "title") (Some "Topic B") [];
                  Elem (xmap "children") None
                    [ Elem (xmap "topics") None
                        [ Elem (xmap "topic") None
                            [Elem (xmap "title") (Some "Subtopic B1") []]
                        ] ] ] ] ] ].

(** A JSON topic whose title is the empty string, and the XML topic with
    an empty title element. *)
Definition json_empty_title : JsonTopic := JsonTopicObj (Some "") [] [].
Definition xml_empty_title : Element :=
  Elem (xmap "topic") None [Elem (xmap "title") (Some "") []].

(** An archive with neither payload entry, and one whose [content.xml]
    does not parse. *)
Definition no_payload : XMindParser.archive := inr [("meta.xml", "<meta/>")].
Definition broken_xml : XMindParser.archive := inr [("content.xml", "<xmap")].
Definition loads_fails (b : XMindParser.bytes)
  : XMindParser.exn + option XMindParser.JsonDoc := inl "Expecting value".
Definition fromstring_fails (b : XMindParser.bytes)
  : XMindParser.exn + Element := inl "unclosed token".

(** The two ways a conversion fails: the reader returns [None], or the
    document has no root topic. *)
Definition conversion_fails
           (json_loads : XMindParser.bytes
                         -> XMindParser.exn + option XMindParser.JsonDoc)
           (fromstring : XMindParser.bytes -> XMindParser.exn + Element)
           (f : XMindToDrawioConverter.xmind_file) : Prop :=
  let parser :=
    XMindParser.parse json_loads fromstring
                      (XMindToDrawioConverter.name f)
                      (XMindToDrawioConverter.content f) in
  XMindParser.returned parser = None \/
  exists root, XMindParser.returned parser = Some root /\
               XMindParser.get_root_topic root = None.

(** A file that is not an archive. *)
Definition not_a_zip : XMindToDrawioConverter.xmind_file :=
  XMindToDrawioConverter.mkInput "a.xmind" "a" (inl "File is not a zip file").

(** ** Vocabulary of the further properties *)

(** Leaves of the tree of attached children below [t], [t] included when
    it has none. *)
Fixpoint leaf_count (t : JsonTopic) : nat :=
  match t with
  | JsonTopicObj _ attached _ =>
      match attached with
      | [] => 1%nat
      | _ :: _ => list_sum (map leaf_count attached)
      end
  end.

(** The topic vertices among some cells. *)
Definition topic_vertices (l : list mxCell) : list mxCell :=
  filter (fun c => kind_eqb (cell_kind c) TopicVertex) l.

(** The box of [c] is a topic box (120 by 60) at or to the right of [x]
    whose vertical band of 120 around its [y] lies between [lo] and
    [hi]. *)
Definition in_band (x lo hi : Z) (c : mxCell) : Prop :=
  exists x' y',
    geometry c = Some (BoxGeometry x' y' 120 60) /\
    x <= x' /\ lo + 60 <= y' /\ y' + 60 <= hi.

(** Two boxes are a column apart or a row apart. *)
Definition separated (a b : mxCell) : Prop :=
  match geometry a, geometry b with
  | Some (BoxGeometry x1 y1 _ _), Some (BoxGeometry x2 y2 _ _) =>
      250 <= Z.abs (x1 - x2) \/ 120 <= Z.abs (y1 - y2)
  | _, _ => False
  end.

(** The rectangles of two boxes, [(x, y)] being the top left corner, do
    not meet. *)
Definition boxes_disjoint (a b : mxCell) : Prop :=
  match geometry a, geometry b with
  | Some (BoxGeometry x1 y1 w1 h1), Some (BoxGeometry x2 y2 w2 h2) =>
      x1 + w1 <= x2 \/ x2 + w2 <= x1 \/ y1 + h1 <= y2 \/ y2 + h2 <= y1
  | _, _ => False
  end.

(** The layout invariant of one call: every topic box it emits lies in
    the band of the subtree height around [y], at or right of [x], and
    any two of them are a column or a row apart. *)
Definition laid_out (t : JsonTopic) : Prop :=
  forall parent_id x y level n,
    Forall (in_band x (y - _calculate_subtree_height t / 2)
                      (y + _calculate_subtree_height t / 2))
           (topic_vertices (emitted t parent_id x y level n)) /\
    ForallOrdPairs separated
                   (topic_vertices (emitted t parent_id x y level n)).

(** The cells a call appended, from the states before and after it. *)
Definition appended (st st' : state) : list mxCell :=
  skipn (List.length (root st)) (root st').

(** The topics below [t] in pre-order (a topic before its attached
    children, these in source order), each with its displayed title and
    its depth, [t] being at depth [level]. *)
Fixpoint preorder (t : JsonTopic) (level : nat) : list (string * nat) :=
  match t with
  | JsonTopicObj title attached _ =>
      (get_title title "Topic", level)
      :: flat_map (fun c => preorder c (S level)) attached
  end.

(** The text, the style and the [x] of a vertex. *)
Definition vertex_info (c : mxCell)
  : option string * option string * option Z :=
  (attr_value c, attr_style c,
   match geometry c with
   | Some (BoxGeometry x _ _ _) => Some x
   | _ => None
   end).

(** The vertex of a topic of depth [d] in a call at [x] and depth
    [level]. *)
Definition expected_info (x : Z) (level : nat) (entry : string * nat)
  : option string * option string * option Z :=
  (Some (fst entry), Some (_get_style (snd entry)),
   Some (x + 250 * (Z.of_nat (snd entry) - Z.of_nat level))).

(** [t] with everything below its callouts removed: each callout, of
    [t] and of its descendants, keeps only its title. *)
Fixpoint strip_callouts (t : JsonTopic) : JsonTopic :=
  match t with
  | JsonTopicObj title attached callout =>
      JsonTopicObj title (map strip_callouts attached)
                   (map (fun k => JsonTopicObj (json_title k) [] []) callout)
  end.

(** Stripping changes nothing of what a call computes. *)
Definition strip_invariant (t : JsonTopic) : Prop :=
  _calculate_subtree_height (strip_callouts t) = _calculate_subtree_height t /\
  cell_count (strip_callouts t) = cell_count t /\
  forall parent_id x y level n,
    emitted (strip_callouts t) parent_id x y level n =
    emitted t parent_id x y level n.

(** The vertices and the edges among some cells, by kind. *)
Definition vertices (l : list mxCell) : list mxCell :=
  filter (fun c => match cell_kind c with
                   | TopicVertex | CalloutVertex => true
                   | _ => false
                   end) l.

Definition edges (l : list mxCell) : list mxCell :=
  filter (fun c => match cell_kind c with
                   | Connector | DashedConnector => true
                   | _ => false
                   end) l.

(** The edge [c] has integer ids [s < t < e] for its source, its target
    and itself, [s] being at least [n]. *)
Definition edge_ordered (n : Z) (c : mxCell) : Prop :=
  exists s t e,
    attr_id c = str e /\ attr_source c = Some (str s) /\
    attr_target c = Some (str t) /\ n <= s /\ s < t /\ t < e.

(** The vertices of a call start with the vertex of its topic, and the
    targets of its edges are the other vertices, each once. *)
Definition tree_shaped (t : JsonTopic) : Prop :=
  forall parent_id x y level n,
    exists others,
      map attr_id (vertices (emitted t parent_id x y level n))
        = str n :: others /\
      Permutation
        (map attr_target (edges (emitted t parent_id x y level n)))
        (map Some others).

(** The entries of an archive the reader can ask for. *)
Definition payload_entries (zip_file : list (string * XMindParser.bytes))
  : list (string * XMindParser.bytes) :=
  filter (fun e => String.eqb (fst e) "content.json"
                   || String.eqb (fst e) "content.xml") zip_file.

(** The [content.json] entries alone. *)
Definition json_entries (zip_file : list (string * XMindParser.bytes))
  : list (string * XMindParser.bytes) :=
  filter (fun e => String.eqb (fst e) "content.json") zip_file.


(** The path [convert_file] writes an input file to. *)
Definition output_path (f : XMindToDrawioConverter.xmind_file) : string :=
  XMindToDrawioConverter.stem f ++ ".drawio".




(** Two siblings, the second with three callouts: the third callout of
    the second comes to lie on the first. *)
Definition three_callouts : JsonTopic :=
  JsonTopicObj (Some "root")
    [ JsonTopicObj (Some "A") [] [];
      JsonTopicObj (Some "B") []
        [ JsonTopicObj (Some "n1") [] []; JsonTopicObj (Some "n2") [] [];
          JsonTopicObj (Some "n3") [] [] ] ]
    [].

(** * Properties *)

(** ** Decimal ids *)

Lemma str_inj (a b : Z) : str a = str b -> a = b.
Proof.
  unfold str. intros H.
  apply DecimalZ.to_int_inj.
  assert (E : Some (Z.to_int a) = Some (Z.to_int b)).
  { rewrite <- (NilEmpty.isi (Z.to_int a)), <- (NilEmpty.isi (Z.to_int b)).
    now rewrite H. }
  now injection E.
Qed.

(** ** Sums *)

Lemma fold_left_add_acc (l : list Z) (acc : Z) :
  fold_left Z.add l acc = acc + py_sum l.
Proof.
  unfold py_sum. revert acc.
  induction l as [|a l IH]; intros acc; simpl.
  - lia.
  - rewrite IH, (IH a). lia.
Qed.

Lemma py_sum_cons (a : Z) (l : list Z) : py_sum (a :: l) = a + py_sum l.
Proof. unfold py_sum at 1. simpl. apply fold_left_add_acc. Qed.

Lemma py_sum_nil : py_sum [] = 0.
Proof. reflexivity. Qed.

(** ** Induction on topics, through both lists *)

Section JsonTopicInd.
Variable P : JsonTopic -> Prop.
Hypothesis step : forall title attached callout,
    Forall P attached -> Forall P callout ->
    P (JsonTopicObj title attached callout).

Fixpoint JsonTopic_nested_ind (t : JsonTopic) : P t :=
  match t with
  | JsonTopicObj title attached callout =>
      step title attached callout
        ((fix all (l : list JsonTopic) : Forall P l :=
            match l with
            | [] => Forall_nil P
            | c :: rest => Forall_cons c (JsonTopic_nested_ind c) (all rest)
            end) attached)
        ((fix all (l : list JsonTopic) : Forall P l :=
            match l with
            | [] => Forall_nil P
            | c :: rest => Forall_cons c (JsonTopic_nested_ind c) (all rest)
            end) callout)
  end.
End JsonTopicInd.

(** ** Subtree height *)

Lemma subtree_height_unfold title attached callout :
  _calculate_subtree_height (JsonTopicObj title attached callout) =
  if truthy attached
  then Z.max (py_sum (map _calculate_subtree_height attached))
             (base_height callout)
  else base_height callout.
Proof.
  destruct attached as [|c rest]; [reflexivity|].
  cbn [truthy].
  change (_calculate_subtree_height (JsonTopicObj title (c :: rest) callout))
    with (Z.max
            ((fix loop (children : list JsonTopic) (total : Z) : Z :=
                match children with
                | [] => total
                | child :: more =>
                    loop more (total + _calculate_subtree_height child)
                end) (c :: rest) 0)
            (base_height callout)).
  f_equal.
  assert (H : forall l acc,
             (fix loop (children : list JsonTopic) (total : Z) : Z :=
                match children with
                | [] => total
                | child :: more =>
                    loop more (total + _calculate_subtree_height child)
                end) l acc
             = acc + py_sum (map _calculate_subtree_height l)).
  { induction l as [|a l IH]; intros acc; cbn [map].
    - rewrite py_sum_nil. lia.
    - rewrite IH, py_sum_cons. lia. }
  rewrite H. lia.
Qed.

Lemma base_height_div10 callouts : exists k, base_height callouts = 10 * k.
Proof.
  unfold base_height, min_y_spacing, callout_spacing.
  destruct (truthy callouts).
  - exists (12 + 7 * Z.of_nat (List.length callouts)). lia.
  - exists 12. lia.
Qed.

Lemma py_sum_div10 (l : list Z) :
  Forall (fun h => exists k, h = 10 * k) l -> exists k, py_sum l = 10 * k.
Proof.
  induction 1 as [|h l [k Hk] _ [k' IH]].
  - exists 0. reflexivity.
  - exists (k + k'). rewrite py_sum_cons. lia.
Qed.

(** Every subtree height is a multiple of ten, so halving one, or a sum of
    them, is exact. *)
Lemma subtree_height_div10 (t : JsonTopic) :
  exists k, _calculate_subtree_height t = 10 * k.
Proof.
  induction t as [title attached callout IHa _] using JsonTopic_nested_ind.
  rewrite subtree_height_unfold.
  destruct (truthy attached); [|apply base_height_div10].
  destruct (base_height_div10 callout) as [kb Hb].
  destruct (py_sum_div10 (map _calculate_subtree_height attached)) as [ks Hs].
  { rewrite Forall_map. exact IHa. }
  destruct (Z.max_spec (py_sum (map _calculate_subtree_height attached))
                       (base_height callout)) as [[_ ->]|[_ ->]];
    eauto.
Qed.

(** ** What one call of the converter appends *)

Lemma children_count_cons c rest :
  children_count (c :: rest) = S (cell_count c + children_count rest).
Proof. reflexivity. Qed.

Lemma state_eq (a b : state) :
  cell_id a = cell_id b -> root a = root b -> a = b.
Proof. destruct a, b; simpl; intros -> ->; reflexivity. Qed.

Lemma callout_loop_spec current_id x y l : forall idx st,
  callout_loop l idx current_id x y st =
  mkState (cell_id st + 2 * Z.of_nat (List.length l))
          (root st ++ callout_cells current_id x y l idx (cell_id st)).
Proof.
  induction l as [|k rest IH]; intros idx st.
  - cbn. apply state_eq; cbn; [lia | now rewrite app_nil_r].
  - cbn [callout_loop _convert_json_callout]. rewrite IH.
    apply state_eq; cbn [cell_id root append next_id callout_cells List.length].
    + lia.
    + rewrite <- !app_assoc. cbn [app].
      replace (cell_id st + 1 + 1) with (cell_id st + 2) by lia.
      reflexivity.
Qed.

Lemma convert_json_unfold title attached callout parent_id x y level st :
  _convert_json_topic (JsonTopicObj title attached callout)
                      parent_id x y level st =
  (str (cell_id st),
   callout_loop callout 0 (str (cell_id st)) x y
     (json_child_loop _convert_json_topic (str (cell_id st)) x level attached
        (y - py_sum (map _calculate_subtree_height attached) / 2)
        (append (topic_cell (str (cell_id st)) (get_title title "Topic")
                            level x y)
                (next_id st)))).
Proof. destruct attached; reflexivity. Qed.

Lemma json_child_loop_spec current_id x level l :
  Forall frames l ->
  forall current_y st,
    json_child_loop _convert_json_topic current_id x level l current_y st =
    mkState (cell_id st + Z.of_nat (children_count l))
            (root st ++ children_cells current_id x level l current_y
                                       (cell_id st)).
Proof.
  induction 1 as [|c rest Hc _ IH]; intros current_y st.
  - cbn. apply state_eq; cbn; [lia | now rewrite app_nil_r].
  - cbn [json_child_loop]. rewrite Hc. rewrite IH.
    rewrite children_count_cons.
    apply state_eq;
      cbn [cell_id root append next_id _create_connector children_cells].
    + lia.
    + rewrite <- !app_assoc. cbn [app]. reflexivity.
Qed.

Lemma emitted_unfold_aux title attached callout parent_id x y level n :
  Forall frames attached ->
  emitted (JsonTopicObj title attached callout) parent_id x y level n =
  topic_cell (str n) (get_title title "Topic") level x y
  :: (children_cells (str n) x level attached
        (y - py_sum (map _calculate_subtree_height attached) / 2) (n + 1)
      ++ callout_cells (str n) x y callout 0
           (n + 1 + Z.of_nat (children_count attached)))%list.
Proof.
  intros Ha. unfold emitted. rewrite convert_json_unfold.
  rewrite callout_loop_spec, (json_child_loop_spec _ _ _ _ Ha).
  cbn [snd root cell_id append next_id app].
  rewrite <- ?app_assoc. reflexivity.
Qed.

Lemma convert_json_frames (t : JsonTopic) : frames t.
Proof.
  induction t as [title attached callout IHa _] using JsonTopic_nested_ind.
  intros parent_id x y level st.
  rewrite (emitted_unfold_aux _ _ _ _ _ _ _ _ IHa).
  rewrite convert_json_unfold.
  rewrite callout_loop_spec, (json_child_loop_spec _ _ _ _ IHa).
  f_equal. apply state_eq;
    cbn [cell_id root append next_id cell_count].
  - fold (children_count attached). lia.
  - rewrite <- !app_assoc. reflexivity.
Qed.

Lemma emitted_unfold title attached callout parent_id x y level n :
  emitted (JsonTopicObj title attached callout) parent_id x y level n =
  topic_cell (str n) (get_title title "Topic") level x y
  :: (children_cells (str n) x level attached
        (y - py_sum (map _calculate_subtree_height attached) / 2) (n + 1)
      ++ callout_cells (str n) x y callout 0
           (n + 1 + Z.of_nat (children_count attached)))%list.
Proof.
  apply emitted_unfold_aux. apply Forall_forall. intros c _.
  apply convert_json_frames.
Qed.

Lemma emitted_length t parent_id x y level n :
  List.length (emitted t parent_id x y level n) = cell_count t.
Proof.
  revert parent_id x y level n.
  induction t as [title attached callout IHa _] using JsonTopic_nested_ind.
  intros parent_id x y level n.
  rewrite emitted_unfold. cbn [List.length cell_count]. f_equal.
  rewrite length_app. f_equal.
  - generalize (y - py_sum (map _calculate_subtree_height attached) / 2).
    generalize (n + 1).
    induction IHa as [|c rest Hc _ IH]; intros m cur; [reflexivity|].
    cbn [children_cells]. fold (children_count (c :: rest)).
    rewrite children_count_cons.
    rewrite length_app. cbn [List.length]. rewrite Hc, IH.
    fold (children_count rest). lia.
  - generalize 0. generalize (n + 1 + Z.of_nat (children_count attached)).
    induction callout as [|k rest IH]; intros m idx; [reflexivity|].
    cbn [callout_cells List.length]. rewrite IH. lia.
Qed.

(** ** The XML path as the JSON path on a normalized topic *)

Lemma depth_child (e c : Element) :
  In c (elem_children e) -> (depth c < depth e)%nat.
Proof.
  destruct e as [tag text children]. cbn [elem_children depth].
  induction children as [|a rest IH]; intros Hin; [contradiction|].
  destruct Hin as [->|Hin].
  - lia.
  - specialize (IH Hin). lia.
Qed.

Lemma findall_In tag e c : In c (findall tag e) -> In c (elem_children e).
Proof. unfold findall. intros H. apply filter_In in H. tauto. Qed.

Lemma find_In tag e c : find tag e = Some c -> In c (elem_children e).
Proof.
  unfold find. intros H. apply (findall_In tag).
  destruct (findall tag e); [discriminate|].
  injection H as ->. now left.
Qed.

Lemma xml_attached_depth (e c : Element) :
  In c (xml_attached e) -> (depth c < depth e)%nat.
Proof.
  unfold xml_attached.
  destruct (find (xmap "children") e) as [ch|] eqn:Hch; [|contradiction].
  unfold collect_child_topics. intros Hin.
  apply in_flat_map in Hin. destruct Hin as [t [Ht Hc]].
  apply find_In, depth_child in Hch.
  apply findall_In, depth_child in Ht.
  apply findall_In, depth_child in Hc.
  lia.
Qed.

Lemma depth_pos (e : Element) : (0 < depth e)%nat.
Proof. destruct e. cbn [depth]. lia. Qed.

Lemma xml_view_fuel (f1 : nat) : forall f2 e,
  (depth e <= f1)%nat -> (depth e <= f2)%nat -> xml_view f1 e = xml_view f2 e.
Proof.
  induction f1 as [|f1 IH]; intros f2 e H1 H2.
  - pose proof (depth_pos e). lia.
  - destruct f2 as [|f2]; [pose proof (depth_pos e); lia|].
    cbn [xml_view]. f_equal.
    apply map_ext_in. intros c Hc.
    apply xml_attached_depth in Hc. apply IH; lia.
Qed.

(** The view of a topic is its title, the views of its child topics, and
    an empty callout list. *)
Lemma normalize_unfold (e : Element) :
  normalize e =
  JsonTopicObj (Some (xml_title e)) (map normalize (xml_attached e)) [].
Proof.
  unfold normalize at 1.
  destruct (depth e) as [|f] eqn:Hd; [pose proof (depth_pos e); lia|].
  cbn [xml_view]. f_equal.
  apply map_ext_in. intros c Hc.
  apply xml_attached_depth in Hc.
  unfold normalize. apply xml_view_fuel; lia.
Qed.

Lemma truthy_map {A B} (f : A -> B) (l : list A) :
  truthy (map f l) = truthy l.
Proof. destruct l; reflexivity. Qed.

Lemma sum_heights_sim (f : Element -> option Z) (g : Element -> Z)
      (l : list Element) :
  (forall c, In c l -> f c = Some (g c)) ->
  forall acc, sum_heights f l acc = Some (acc + py_sum (map g l)).
Proof.
  induction l as [|c rest IH]; intros Hf acc; cbn [sum_heights map].
  - rewrite py_sum_nil. f_equal. lia.
  - rewrite (Hf c) by now left.
    rewrite IH by (intros; apply Hf; now right).
    rewrite py_sum_cons. f_equal. lia.
Qed.

Lemma xml_height_sim (fuel : nat) : forall e,
  (depth e <= fuel)%nat ->
  _calculate_xml_subtree_height fuel e =
  Some (_calculate_subtree_height (xml_view fuel e)).
Proof.
  induction fuel as [|fuel IH]; intros e Hd.
  - pose proof (depth_pos e). lia.
  - cbn [_calculate_xml_subtree_height xml_view].
    rewrite subtree_height_unfold, truthy_map.
    unfold xml_attached at 1 2.
    pose proof (xml_attached_depth e) as Hdepth. unfold xml_attached in Hdepth.
    destruct (find (xmap "children") e) as [ch|]; [|reflexivity].
    destruct (truthy (collect_child_topics ch)) eqn:Ht; [|reflexivity].
    cbn [negb].
    rewrite (sum_heights_sim _
               (fun c => _calculate_subtree_height (xml_view fuel c))).
    + rewrite map_map. reflexivity.
    + intros c Hc. apply IH. apply Hdepth in Hc. lia.
Qed.

Lemma xml_child_loop_sim
      (convert : Element -> string -> Z -> Z -> nat -> state
                 -> option (string * state))
      (height : Element -> option Z) (view : Element -> JsonTopic)
      current_id x level (l : list Element) :
  (forall c, In c l ->
     height c = Some (_calculate_subtree_height (view c)) /\
     forall pid cx cy lvl st,
       convert c pid cx cy lvl st =
       Some (_convert_json_topic (view c) pid cx cy lvl st)) ->
  forall current_y st,
    xml_child_loop convert height l current_id x current_y level st =
    Some (json_child_loop _convert_json_topic current_id x level
                          (map view l) current_y st).
Proof.
  induction l as [|c rest IH]; intros Hsim current_y st; [reflexivity|].
  cbn [xml_child_loop map json_child_loop].
  destruct (Hsim c (or_introl eq_refl)) as [-> ->].
  destruct (_convert_json_topic (view c) current_id (x + x_spacing)
              (current_y + _calculate_subtree_height (view c) / 2)
              (S level) st) as [child_id st'].
  apply IH. intros c' Hc'. apply Hsim. now right.
Qed.

(** With fuel at least the depth of the topic, [_convert_xml_topic]
    returns, and returns what [_convert_json_topic] does on the view. *)
Lemma xml_convert_sim (fuel : nat) : forall e,
  (depth e <= fuel)%nat ->
  forall parent_id x y level st,
    _convert_xml_topic fuel e parent_id x y level st =
    Some (_convert_json_topic (xml_view fuel e) parent_id x y level st).
Proof.
  induction fuel as [|fuel IH]; intros e Hd parent_id x y level st.
  - pose proof (depth_pos e). lia.
  - cbn [_convert_xml_topic xml_view].
    rewrite convert_json_unfold. cbn [get_title callout_loop].
    unfold xml_attached at 1 2.
    pose proof (xml_attached_depth e) as Hdepth. unfold xml_attached in Hdepth.
    destruct (find (xmap "children") e) as [ch|]; [|reflexivity].
    destruct (collect_child_topics ch) as [|c0 rest] eqn:Hl; [reflexivity|].
    cbn [truthy].
    assert (Hsim : forall c, In c (c0 :: rest) ->
              _calculate_xml_subtree_height fuel c =
                Some (_calculate_subtree_height (xml_view fuel c)) /\
              forall pid cx cy lvl s,
                _convert_xml_topic fuel c pid cx cy lvl s =
                Some (_convert_json_topic (xml_view fuel c) pid cx cy lvl s)).
    { intros c Hc. apply Hdepth in Hc. split.
      - apply xml_height_sim. lia.
      - apply IH. lia. }
    rewrite (sum_heights_sim _
               (fun c => _calculate_subtree_height (xml_view fuel c)))
      by (intros c Hc; apply Hsim, Hc).
    rewrite (xml_child_loop_sim _ _ (xml_view fuel)) by exact Hsim.
    rewrite map_map. reflexivity.
Qed.

(** ** Kinds, ids and containment of the appended cells *)

Lemma counter_from_S n k : counter_from n (S k) = n :: counter_from (n + 1) k.
Proof.
  unfold counter_from. cbn [seq map]. f_equal; [lia|].
  rewrite <- seq_shift, map_map. apply map_ext. intros i. lia.
Qed.

Lemma counter_from_app n a b :
  counter_from n (a + b) =
  (counter_from n a ++ counter_from (n + Z.of_nat a) b)%list.
Proof.
  revert n. induction a as [|a IH]; intros n.
  - cbn [Nat.add]. replace (n + Z.of_nat 0) with n by lia. reflexivity.
  - cbn [Nat.add]. rewrite !counter_from_S, IH. cbn [app].
    do 3 f_equal. lia.
Qed.

Lemma counter_from_In n k i : In i (counter_from n k) -> n <= i < n + Z.of_nat k.
Proof.
  unfold counter_from. intros H. apply in_map_iff in H.
  destruct H as [j [<- Hj]]. apply in_seq in Hj. lia.
Qed.

Lemma counter_from_NoDup n k : NoDup (counter_from n k).
Proof.
  unfold counter_from. apply Injective_map_NoDup; [|apply seq_NoDup].
  intros i j H. lia.
Qed.

Lemma topic_cell_kind current_id title level x y :
  cell_kind (topic_cell current_id title level x y) = TopicVertex.
Proof. destruct level as [|[|level]]; reflexivity. Qed.

Lemma callout_cells_kinds current_id x y l : forall idx n,
  map cell_kind (callout_cells current_id x y l idx n) =
  flat_map (fun _ => [CalloutVertex; DashedConnector]) l.
Proof.
  induction l as [|k rest IH]; intros idx n; [reflexivity|].
  cbn [callout_cells map flat_map app]. now rewrite IH.
Qed.

Lemma callout_cells_ids current_id x y l : forall idx n,
  map attr_id (callout_cells current_id x y l idx n) =
  map str (counter_from n (2 * List.length l)).
Proof.
  induction l as [|k rest IH]; intros idx n; [reflexivity|].
  cbn [callout_cells map List.length].
  replace (2 * S (List.length rest))%nat
    with (S (S (2 * List.length rest))) by lia.
  rewrite !counter_from_S. cbn [map attr_id callout_cell dashed_cell].
  rewrite IH. replace (n + 1 + 1) with (n + 2) by lia. reflexivity.
Qed.

(** The kinds of the cells of a call, in the order they are appended. *)
Lemma emitted_kinds (t : JsonTopic) : forall parent_id x y level n,
  map cell_kind (emitted t parent_id x y level n) = emission_order t.
Proof.
  induction t as [title attached callout IHa _] using JsonTopic_nested_ind.
  intros parent_id x y level n.
  rewrite emitted_unfold. cbn [map emission_order].
  rewrite topic_cell_kind, map_app, callout_cells_kinds. do 2 f_equal.
  generalize (y - py_sum (map _calculate_subtree_height attached) / 2).
  generalize (n + 1).
  induction IHa as [|c rest Hc _ IH]; intros m cur; [reflexivity|].
  cbn [children_cells flat_map]. rewrite map_app. cbn [map].
  rewrite Hc, IH, <- app_assoc. reflexivity.
Qed.

Lemma callout_cells_trace current_id x y l : forall idx n,
  map describe (callout_cells current_id x y l idx n) =
  callouts_trace current_id l n.
Proof.
  induction l as [|k rest IH]; intros idx n; [reflexivity|].
  cbn [callout_cells map callouts_trace]. now rewrite IH.
Qed.

(** The cells of a call, described, are the allocation written out by
    [emission_trace]. *)
Lemma emitted_trace (t : JsonTopic) : forall parent_id x y level n,
  map describe (emitted t parent_id x y level n) = emission_trace t n.
Proof.
  induction t as [title attached callout IHa _] using JsonTopic_nested_ind.
  intros parent_id x y level n.
  rewrite emitted_unfold. cbn [map emission_trace].
  unfold describe at 1. rewrite topic_cell_kind. cbn [attr_id attr_source
    attr_target topic_cell].
  rewrite map_app, callout_cells_trace. do 2 f_equal.
  generalize (y - py_sum (map _calculate_subtree_height attached) / 2).
  generalize (n + 1).
  induction IHa as [|c rest Hc _ IH]; intros m cur; [reflexivity|].
  cbn [children_cells children_trace]. rewrite map_app. cbn [map].
  rewrite Hc, IH. reflexivity.
Qed.

(** The ids of the cells of a call are the successive values of the
    counter. *)
Lemma emitted_ids (t : JsonTopic) : forall parent_id x y level n,
  map attr_id (emitted t parent_id x y level n) =
  map str (counter_from n (cell_count t)).
Proof.
  induction t as [title attached callout IHa _] using JsonTopic_nested_ind.
  intros parent_id x y level n.
  rewrite emitted_unfold. cbn [cell_count].
  rewrite counter_from_S. cbn [map]. f_equal.
  fold (children_count attached).
  rewrite counter_from_app, !map_app, callout_cells_ids.
  f_equal.
  generalize (y - py_sum (map _calculate_subtree_height attached) / 2).
  generalize (n + 1).
  induction IHa as [|c rest Hc _ IH]; intros m cur; [reflexivity|].
  cbn [children_cells]. rewrite children_count_cons.
  replace (S (cell_count c + children_count rest))
    with (cell_count c + S (children_count rest))%nat by lia.
  rewrite counter_from_app, counter_from_S, !map_app. cbn [map].
  rewrite Hc, IH. cbn [attr_id connector_cell].
  repeat f_equal.
Qed.

Lemma callout_cells_shape current_id x y l : forall idx n,
  Forall generated_shape (callout_cells current_id x y l idx n).
Proof.
  induction l as [|k rest IH]; intros idx n; cbn [callout_cells];
    repeat constructor. apply IH.
Qed.

(** Every cell of a call has one of the four shapes. *)
Lemma emitted_shape (t : JsonTopic) : forall parent_id x y level n,
  Forall generated_shape (emitted t parent_id x y level n).
Proof.
  induction t as [title attached callout IHa _] using JsonTopic_nested_ind.
  intros parent_id x y level n.
  rewrite emitted_unfold. constructor; [constructor|].
  apply Forall_app. split; [|apply callout_cells_shape].
  generalize (y - py_sum (map _calculate_subtree_height attached) / 2).
  generalize (n + 1).
  induction IHa as [|c rest Hc _ IH]; intros m cur; [constructor|].
  cbn [children_cells]. apply Forall_app. split; [apply Hc|].
  constructor; [constructor | apply IH].
Qed.

Lemma generated_shape_parent (c : mxCell) :
  generated_shape c -> attr_parent c = Some "1".
Proof. destruct 1; reflexivity. Qed.

Lemma generated_shape_geometry (c : mxCell) :
  generated_shape c ->
  match cell_kind c with
  | TopicVertex | CalloutVertex =>
      attr_source c = None /\ attr_target c = None /\
      exists x y w h, geometry c = Some (BoxGeometry x y w h)
  | _ =>
      (exists s, attr_source c = Some s) /\ (exists t, attr_target c = Some t) /\
      geometry c = Some RelativeGeometry
  end.
Proof.
  destruct 1; try rewrite topic_cell_kind; cbn; eauto 10.
Qed.

(** ** Edges refer to vertices *)

Lemma edges_within_incl (sup sup' l : list mxCell) :
  incl sup sup' -> edges_within sup l -> edges_within sup' l.
Proof.
  intros Hincl H c Hc He. destruct (H c Hc He) as [v [w Hvw]].
  exists v, w. intuition auto.
Qed.

Lemma edges_within_app (sup l1 l2 : list mxCell) :
  edges_within sup l1 -> edges_within sup l2 -> edges_within sup (l1 ++ l2).
Proof.
  intros H1 H2 c Hc. apply in_app_or in Hc. destruct Hc; auto.
Qed.

Lemma emitted_head t parent_id x y level n :
  In (topic_cell (str n) (get_title (json_title t) "Topic") level x y)
     (emitted t parent_id x y level n).
Proof. destruct t. rewrite emitted_unfold. now left. Qed.

Lemma callout_cells_edges (sup : list mxCell) (v0 : mxCell) y x l :
  In v0 sup -> is_vertex v0 = true ->
  forall idx n,
    incl (callout_cells (attr_id v0) x y l idx n) sup ->
    edges_within sup (callout_cells (attr_id v0) x y l idx n).
Proof.
  intros Hv0 Hvert.
  induction l as [|k rest IH]; intros idx n Hincl c Hc He; [contradiction|].
  cbn [callout_cells] in Hc, Hincl.
  destruct Hc as [<-|[<-|Hc]].
  - discriminate.
  - exists v0, (callout_cell (str n) (get_title (json_title k) "")
                             (x + callout_offset_x)
                             (y + callout_offset_y - idx * callout_spacing)).
    repeat split; auto. apply Hincl. now left.
  - apply (IH (idx + 1) (n + 2)); auto.
    intros a Ha. apply Hincl. right. right. exact Ha.
Qed.

Lemma children_cells_edges (sup : list mxCell) (v0 : mxCell) x level l :
  In v0 sup -> is_vertex v0 = true ->
  Forall (fun c => forall parent_id cx cy lvl n,
              edges_within (emitted c parent_id cx cy lvl n)
                           (emitted c parent_id cx cy lvl n)) l ->
  forall current_y n,
    incl (children_cells (attr_id v0) x level l current_y n) sup ->
    edges_within sup (children_cells (attr_id v0) x level l current_y n).
Proof.
  intros Hv0 Hvert Hl.
  induction Hl as [|c rest Hc _ IH]; intros current_y n Hincl;
    [intros a []|].
  cbn [children_cells] in *.
  apply edges_within_app.
  - apply (edges_within_incl (emitted c (attr_id v0) (x + x_spacing)
             (current_y + _calculate_subtree_height c / 2) (S level) n));
      [|apply Hc].
    intros a Ha. apply Hincl, in_or_app. now left.
  - intros a [<-|Ha] He.
    + exists v0, (topic_cell (str n) (get_title (json_title c) "Topic")
                             (S level) (x + x_spacing)
                             (current_y + _calculate_subtree_height c / 2)).
      repeat split; auto.
      apply Hincl, in_or_app. left. apply emitted_head.
    + apply (IH (current_y + _calculate_subtree_height c)
                (n + Z.of_nat (cell_count c) + 1)); auto.
      intros b Hb. apply Hincl, in_or_app. right. right. exact Hb.
Qed.

(** The source and target of every edge a call appends are ids of vertices
    the same call appends. *)
Lemma emitted_edges (t : JsonTopic) : forall parent_id x y level n,
  edges_within (emitted t parent_id x y level n)
               (emitted t parent_id x y level n).
Proof.
  induction t as [title attached callout IHa _] using JsonTopic_nested_ind.
  intros parent_id x y level n.
  rewrite emitted_unfold.
  set (v0 := topic_cell (str n) (get_title title "Topic") level x y).
  set (kids := children_cells (str n) x level attached
                 (y - py_sum (map _calculate_subtree_height attached) / 2)
                 (n + 1)).
  set (notes := callout_cells (str n) x y callout 0
                  (n + 1 + Z.of_nat (children_count attached))).
  assert (Hv0 : In v0 (v0 :: kids ++ notes)) by now left.
  assert (Hvert : is_vertex v0 = true) by reflexivity.
  intros c [<-|Hc] He.
  - subst v0. destruct level as [|[|level]]; discriminate.
  - apply in_app_or in Hc. destruct Hc as [Hc|Hc].
    + apply (children_cells_edges _ v0 x level attached Hv0 Hvert IHa
               (y - py_sum (map _calculate_subtree_height attached) / 2)
               (n + 1)); auto.
      intros a Ha. right. apply in_or_app. now left.
    + apply (callout_cells_edges _ v0 y x callout Hv0 Hvert 0
               (n + 1 + Z.of_nat (children_count attached))); auto.
      intros a Ha. right. apply in_or_app. now right.
Qed.

(** ** Whole documents *)

(** Conversion always returns, and the document is the two default cells
    followed by what the call on the root topic appends from counter 2. *)
Lemma generate_spec (root_topic : RootTopic) :
  generate root_topic =
  Some (wrap ([default_cell_0; default_cell_1]
              ++ emitted (root_view root_topic) "1" 400 300 0 2)%list).
Proof.
  unfold generate, create_drawio_xml.
  destruct root_topic as [t|e]; cbn [root_view].
  - rewrite convert_json_frames. reflexivity.
  - rewrite xml_convert_sim by lia. fold (normalize e).
    rewrite convert_json_frames. reflexivity.
Qed.

Lemma generated_wrap (l : list mxCell) :
  generated (wrap ([default_cell_0; default_cell_1] ++ l)%list) = l.
Proof. reflexivity. Qed.

(** ** Counting *)

Lemma count_kind_map k l : count_kind k l = count_in k (map cell_kind l).
Proof.
  unfold count_kind, count_in.
  induction l as [|c l IH]; [reflexivity|].
  cbn [filter map]. destruct (kind_eqb (cell_kind c) k); cbn [List.length];
    now rewrite IH.
Qed.

Lemma count_in_app k l1 l2 :
  count_in k (l1 ++ l2) = (count_in k l1 + count_in k l2)%nat.
Proof. unfold count_in. now rewrite filter_app, length_app. Qed.

Lemma count_in_flat_map {A} k (f : A -> list kind) (l : list A) :
  count_in k (flat_map f l) = list_sum (map (fun a => count_in k (f a)) l).
Proof.
  induction l as [|a l IH]; [reflexivity|].
  cbn [flat_map map list_sum fold_right]. rewrite count_in_app, IH.
  reflexivity.
Qed.

Lemma list_sum_map_ext {A} (P : A -> Prop) (f g : A -> nat) (l : list A) :
  Forall P l -> (forall a, P a -> f a = g a) ->
  list_sum (map f l) = list_sum (map g l).
Proof.
  intros Hl Hfg. induction Hl as [|a l Ha _ IH]; [reflexivity|].
  cbn [map list_sum fold_right]. rewrite (Hfg a Ha). f_equal. exact IH.
Qed.

Lemma list_sum_map_const {A} (n : nat) (l : list A) :
  list_sum (map (fun _ => n) l) = (n * List.length l)%nat.
Proof.
  induction l as [|a l IH]; cbn [map list_sum fold_right List.length];
    [lia|].
  fold (list_sum (map (fun _ : A => n) l)). rewrite IH. lia.
Qed.

Lemma list_sum_map_S {A} (f : A -> nat) (l : list A) :
  list_sum (map (fun a => S (f a)) l) = (List.length l + list_sum (map f l))%nat.
Proof.
  induction l as [|a l IH]; [reflexivity|].
  cbn [map list_sum fold_right List.length].
  fold (list_sum (map (fun a => S (f a)) l)). fold (list_sum (map f l)).
  rewrite IH. lia.
Qed.

Lemma list_sum_map_add {A} (f g : A -> nat) (l : list A) :
  list_sum (map (fun a => (f a + g a)%nat) l) =
  (list_sum (map f l) + list_sum (map g l))%nat.
Proof.
  induction l as [|a l IH]; [reflexivity|].
  cbn [map list_sum fold_right].
  fold (list_sum (map (fun a => (f a + g a)%nat) l)).
  fold (list_sum (map f l)). fold (list_sum (map g l)). rewrite IH. lia.
Qed.

Lemma emission_order_count (k : kind) (t : JsonTopic) :
  count_in k (emission_order t) = expected_count k t.
Proof.
  induction t as [title attached callout IHa _] using JsonTopic_nested_ind.
  cbn [emission_order].
  assert (E : forall l : list kind,
             count_in k (TopicVertex :: l) =
             ((if kind_eqb TopicVertex k then 1 else 0) + count_in k l)%nat).
  { intros l. unfold count_in. cbn [filter].
    destruct (kind_eqb TopicVertex k); reflexivity. }
  rewrite E, count_in_app, !count_in_flat_map.
  rewrite (list_sum_map_ext _ _
             (fun c => (expected_count k c + count_in k [Connector])%nat)
             _ IHa)
    by (intros c Hc; rewrite count_in_app, Hc; reflexivity).
  rewrite list_sum_map_add, !list_sum_map_const.
  destruct k; cbn [kind_eqb].
  - change (expected_count TopicVertex) with topic_count.
    cbn [topic_count]. cbn. lia.
  - change (expected_count Connector) with edge_count.
    cbn [edge_count]. rewrite list_sum_map_S. cbn. lia.
  - change (expected_count CalloutVertex) with callout_count.
    cbn [callout_count]. cbn. lia.
  - change (expected_count DashedConnector) with callout_count.
    cbn [callout_count]. cbn. lia.
  - change (expected_count Structural) with (fun _ : JsonTopic => O).
    rewrite list_sum_map_const. cbn. lia.
Qed.

Lemma xml_view_callout_count (fuel : nat) : forall e,
  callout_count (xml_view fuel e) = O.
Proof.
  induction fuel as [|fuel IH]; intros e; [reflexivity|].
  cbn [xml_view callout_count List.length Nat.add].
  rewrite map_map.
  rewrite (list_sum_map_ext (fun _ => True) _ (fun _ => O));
    [ rewrite list_sum_map_const; lia
    | apply Forall_forall; trivial
    | intros c _; apply IH ].
Qed.

Lemma emitted_id_range t parent_id x y level n c :
  In c (emitted t parent_id x y level n) ->
  exists i, n <= i /\ attr_id c = str i.
Proof.
  intros Hin. apply (in_map attr_id) in Hin.
  rewrite emitted_ids in Hin. apply in_map_iff in Hin.
  destruct Hin as [i [Hi Hin]]. apply counter_from_In in Hin.
  exists i. split; [lia | now symmetry].
Qed.

(** * The claims *)

(** ** C1: order of id allocation *)

(** C1 as stated fails: on a root with one child and one callout the
    converter gives id 3 to the child, 4 to the connector and only then 5
    and 6 to the callout and its dashed connector, while the claimed order
    puts the callout before the child and the connector right after the
    child's vertex. *)
Lemma C1_claimed_order_counterexample :
  exists doc,
    generate (JsonRoot child_and_callout) = Some doc /\
    map (fun c => (attr_id c, cell_kind c)) (generated doc) =
      [("2", TopicVertex); ("3", TopicVertex); ("4", Connector);
       ("5", CalloutVertex); ("6", DashedConnector)] /\
    claimed_order false child_and_callout =
      [TopicVertex; CalloutVertex; DashedConnector; TopicVertex; Connector] /\
    map cell_kind (generated doc) <> claimed_order false child_and_callout.
Proof.
  eexists. split; [reflexivity|].
  split; [reflexivity|]. split; [reflexivity|].
  cbv. discriminate.
Qed.

(** C1 (amended): in every converted document the generated ids are the
    successive values 2, 3, 4, ... of the counter in the order the cells
    are appended, and that order is: a topic's vertex, then for each
    attached child its whole subtree followed by the connector from the
    topic to that child, then for each callout its vertex followed by its
    dashed connector from the topic. *)
Theorem C1_ids_follow_emission_order (root_topic : RootTopic) :
  exists doc,
    generate root_topic = Some doc /\
    map attr_id (generated doc) =
      map str (counter_from 2 (List.length (generated doc))) /\
    map cell_kind (generated doc) = emission_order (root_view root_topic) /\
    map describe (generated doc) = emission_trace (root_view root_topic) 2.
Proof.
  eexists. split; [apply generate_spec|].
  rewrite generated_wrap. split; [|split].
  - rewrite emitted_length. apply emitted_ids.
  - apply emitted_kinds.
  - apply emitted_trace.
Qed.

(** ** C2: uniqueness of ids and the two reserved cells *)

(** C2: in every converted document no id occurs twice; the ids "0" and
    "1" occur exactly once each, on the two default cells emitted first;
    the cell with id "1" has parent "0"; and no generated cell has id "0"
    or "1". *)
Theorem C2_cell_ids_unique (root_topic : RootTopic) :
  exists doc,
    generate root_topic = Some doc /\
    NoDup (map attr_id (cells doc)) /\
    count_occ string_dec (map attr_id (cells doc)) "0" = 1%nat /\
    count_occ string_dec (map attr_id (cells doc)) "1" = 1%nat /\
    nth_error (cells doc) 0 = Some default_cell_0 /\
    nth_error (cells doc) 1 = Some default_cell_1 /\
    (forall c, In c (cells doc) -> attr_id c = "1" ->
               attr_parent c = Some "0") /\
    Forall (fun c => attr_id c <> "0" /\ attr_id c <> "1") (generated doc).
Proof.
  eexists. split; [apply generate_spec|].
  rewrite generated_wrap. cbn [cells wrap].
  set (t := root_view root_topic).
  assert (Hids : map attr_id
                   ([default_cell_0; default_cell_1]
                    ++ emitted t "1" 400 300 0 2)%list
                 = map str (counter_from 0 (2 + cell_count t))).
  { rewrite map_app, emitted_ids, counter_from_app. reflexivity. }
  assert (Hnodup : NoDup (map str (counter_from 0 (2 + cell_count t)))).
  { apply Injective_map_NoDup; [|apply counter_from_NoDup].
    intros a b. apply str_inj. }
  assert (Hgen : forall c, In c (emitted t "1" 400 300 0 2) ->
                           attr_id c <> "0" /\ attr_id c <> "1").
  { intros c Hc. apply emitted_id_range in Hc. destruct Hc as [i [Hi ->]].
    split; intros E.
    - apply (str_inj i 0) in E. lia.
    - apply (str_inj i 1) in E. lia. }
  rewrite Hids.
  repeat split.
  - exact Hnodup.
  - apply NoDup_count_occ'; [exact Hnodup|].
    rewrite <- Hids. now left.
  - apply NoDup_count_occ'; [exact Hnodup|].
    rewrite <- Hids. right. now left.
  - intros c [<-|[<-|Hc]] Hid; [discriminate | reflexivity |].
    apply Hgen in Hc. tauto.
  - apply Forall_forall. exact Hgen.
Qed.

(** ** C3: subtree height *)

Lemma xml_height_enough_fuel (e : Element) (k : nat) :
  _calculate_xml_subtree_height (depth e + k) e =
  Some (_calculate_subtree_height (normalize e)).
Proof.
  rewrite xml_height_sim by lia. do 2 f_equal.
  unfold normalize. apply xml_view_fuel; lia.
Qed.

Lemma xml_height_normalize (e : Element) :
  xml_height e = _calculate_subtree_height (normalize e).
Proof.
  unfold xml_height.
  rewrite <- (Nat.add_0_r (depth e)) at 1.
  now rewrite xml_height_enough_fuel.
Qed.

Lemma base_height_spec (callouts : list JsonTopic) :
  base_height callouts =
  if (0 <? List.length callouts)%nat
  then 120 + Z.of_nat (List.length callouts) * 70 else 120.
Proof. destruct callouts; reflexivity. Qed.

Lemma json_height_spec title attached callout :
  _calculate_subtree_height (JsonTopicObj title attached callout) =
  spec_height (List.length callout) (map _calculate_subtree_height attached).
Proof.
  rewrite subtree_height_unfold, base_height_spec. unfold spec_height.
  destruct attached as [|c rest]; [reflexivity|].
  cbn [truthy map]. apply Z.max_comm.
Qed.

(** C3: the JSON height function returns 120, plus 70 per callout when
    the topic has callouts, if the topic has no attached children, and
    otherwise the maximum of that base and the sum of the heights of the
    attached children; the XML height function, given fuel at least the
    depth of the topic, returns the same with no callouts. *)
Theorem C3_subtree_height :
  (forall title attached callout,
      _calculate_subtree_height (JsonTopicObj title attached callout) =
      spec_height (List.length callout)
                  (map _calculate_subtree_height attached)) /\
  (forall (topic : Element) (k : nat),
      _calculate_xml_subtree_height (depth topic + k) topic =
        Some (xml_height topic) /\
      xml_height topic =
        spec_height 0 (map xml_height (xml_attached topic))).
Proof.
  split; [exact json_height_spec|].
  intros e k. split.
  - rewrite xml_height_enough_fuel. now rewrite xml_height_normalize.
  - rewrite xml_height_normalize, normalize_unfold, json_height_spec.
    cbn [List.length]. rewrite map_map. f_equal.
    apply map_ext. intros c. now rewrite xml_height_normalize.
Qed.

(** ** C4: placement *)

Lemma children_cells_at current_id x level l : forall current_y n,
  children_cells current_id x level l current_y n =
  children_at current_id level l
    (place_children x current_y (map _calculate_subtree_height l)) n.
Proof.
  induction l as [|c rest IH]; intros current_y n; [reflexivity|].
  cbn [children_cells map place_children children_at].
  rewrite IH. reflexivity.
Qed.

Lemma callout_cells_at current_id x y l : forall (i : nat) n,
  callout_cells current_id x y l (Z.of_nat i) n =
  callouts_at current_id l
    (map (fun i => (x - 50, y - 80 - Z.of_nat i * 70)) (seq i (List.length l)))
    n.
Proof.
  induction l as [|k rest IH]; intros i n; [reflexivity|].
  cbn [callout_cells List.length seq map callouts_at].
  replace (Z.of_nat i + 1) with (Z.of_nat (S i)) by lia.
  rewrite IH. unfold callout_offset_x, callout_offset_y, callout_spacing.
  replace (x + -50) with (x - 50) by lia.
  replace (y + -80 - Z.of_nat i * 70) with (y - 80 - Z.of_nat i * 70) by lia.
  reflexivity.
Qed.

Lemma xml_convert_frames (e : Element) (k : nat) parent_id x y level st :
  _convert_xml_topic (depth e + k) e parent_id x y level st =
  Some (str (cell_id st),
        mkState (cell_id st + Z.of_nat (cell_count (normalize e)))
                (root st ++ emitted (normalize e) parent_id x y level
                                    (cell_id st))).
Proof.
  rewrite xml_convert_sim by lia.
  replace (xml_view (depth e + k) e) with (normalize e)
    by (unfold normalize; apply xml_view_fuel; lia).
  now rewrite convert_json_frames.
Qed.

(** C4: a call on a topic at [(x, y)] appends the topic's box at
    [(x, y)], then the cells of its attached children, child [i] being
    converted at [(x + 250, cursor_i + height_i / 2)] where the cursor
    starts at [y] minus half the sum of the children's heights and advances
    by each child's height, then its callouts, callout [i] (from 0) at
    [(x - 50, y - 80 - i * 70)].  The XML function does the same, given
    fuel at least the depth of the topic, with the child topics it collects
    and no callouts; the heights are multiples of ten, so the halves are
    exact. *)
Theorem C4_placement :
  (forall title attached callout parent_id x y level st,
      _convert_json_topic (JsonTopicObj title attached callout)
                          parent_id x y level st =
      (str (cell_id st),
       mkState
         (cell_id st
          + Z.of_nat (cell_count (JsonTopicObj title attached callout)))
         (root st
          ++ topic_cell (str (cell_id st)) (get_title title "Topic")
                        level x y
          :: children_at (str (cell_id st)) level attached
               (child_positions x y (map _calculate_subtree_height attached))
               (cell_id st + 1)
          ++ callouts_at (str (cell_id st)) callout
               (callout_positions x y (List.length callout))
               (cell_id st + 1 + Z.of_nat (children_count attached))))) /\
  (forall (topic : Element) (k : nat) parent_id x y level st,
      _convert_xml_topic (depth topic + k) topic parent_id x y level st =
      Some (str (cell_id st),
            mkState
              (cell_id st + Z.of_nat (cell_count (normalize topic)))
              (root st
               ++ topic_cell (str (cell_id st)) (xml_title topic) level x y
               :: children_at (str (cell_id st)) level
                    (map normalize (xml_attached topic))
                    (child_positions x y
                       (map xml_height (xml_attached topic)))
                    (cell_id st + 1))) /\
      forall n,
        emitted (normalize topic) parent_id x y level n =
        match _convert_xml_topic (depth topic + k) topic parent_id x y level
                                 (mkState n []) with
        | Some (_, st') => root st'
        | None => []
        end) /\
  (forall t, exists half, _calculate_subtree_height t = 2 * half) /\
  (forall t parent_id x y level n,
      hd_error (emitted t parent_id x y level n) =
      Some (topic_cell (str n) (get_title (json_title t) "Topic") level x y)).
Proof.
  split; [|split; [|split]].
  - intros. rewrite convert_json_frames, emitted_unfold.
    rewrite children_cells_at, (callout_cells_at _ _ _ _ 0).
    reflexivity.
  - intros e k parent_id x y level st. split.
    + rewrite xml_convert_frames. rewrite (normalize_unfold e) at 2.
      rewrite emitted_unfold, children_cells_at. cbn [callout_cells get_title].
      rewrite app_nil_r, !map_map.
      unfold child_positions.
      rewrite (map_ext _ _ xml_height_normalize).
      reflexivity.
    + intros n. rewrite xml_convert_frames. reflexivity.
  - intros t. destruct (subtree_height_div10 t) as [q Hq].
    exists (5 * q). lia.
  - intros [title attached callout] parent_id x y level n.
    rewrite emitted_unfold. reflexivity.
Qed.

(** ** C5: one cell per topic, callout and relation *)

Example scenario_A_counts :
  option_map (fun doc => (count_kind TopicVertex (generated doc),
                          count_kind CalloutVertex (generated doc),
                          count_kind Connector (generated doc),
                          count_kind DashedConnector (generated doc)))
             (generate (JsonRoot scenario_A))
  = Some (6, 2, 5, 2)%nat.
Proof. reflexivity. Qed.

(** C5: the converted document has as many topic vertices as there are
    topics reachable from the root through attached children (the root
    included), as many callout vertices as these topics have callouts, as
    many structural connectors as there are attached parent-child pairs,
    and as many dashed connectors as callouts. *)
Theorem C5_cell_counts (root_topic : RootTopic) :
  exists doc,
    generate root_topic = Some doc /\
    count_kind TopicVertex (generated doc) =
      topic_count (root_view root_topic) /\
    count_kind CalloutVertex (generated doc) =
      callout_count (root_view root_topic) /\
    count_kind Connector (generated doc) =
      edge_count (root_view root_topic) /\
    count_kind DashedConnector (generated doc) =
      callout_count (root_view root_topic).
Proof.
  eexists. split; [apply generate_spec|].
  rewrite generated_wrap.
  repeat split; rewrite count_kind_map, emitted_kinds;
    apply emission_order_count.
Qed.

(** ** C6: displayed title *)

(** The text of the vertex of a topic: for a JSON topic the title when
    the key is present and "Topic" when it is absent; for an XML topic the
    text of its title element when there is one with a non-empty text and
    "Topic" otherwise. *)
Lemma displayed_title :
  (forall t parent_id x y level n,
      option_map attr_value (hd_error (emitted t parent_id x y level n)) =
      Some (Some (match json_title t with Some s => s | None => "Topic" end)))
  /\
  (forall e parent_id x y level n,
      option_map attr_value
                 (hd_error (emitted (normalize e) parent_id x y level n)) =
      Some (Some (xml_title e))).
Proof.
  split.
  - intros [title attached callout] parent_id x y level n.
    rewrite emitted_unfold. reflexivity.
  - intros e parent_id x y level n.
    rewrite normalize_unfold, emitted_unfold. reflexivity.
Qed.

(** C6 at the empty title: the JSON path emits the empty string as the
    text of the vertex, where the XML path substitutes "Topic"; with the
    title absent both substitute "Topic". *)
Theorem C6_json_empty_title_kept :
  option_map (fun doc => map attr_value (generated doc))
             (generate (JsonRoot json_empty_title)) = Some [Some ""] /\
  option_map (fun doc => map attr_value (generated doc))
             (generate (XmlRoot xml_empty_title)) = Some [Some "Topic"] /\
  option_map (fun doc => map attr_value (generated doc))
             (generate (JsonRoot (JsonTopicObj None [] [])))
    = Some [Some "Topic"] /\
  option_map (fun doc => map attr_value (generated doc))
             (generate (XmlRoot (Elem (xmap "topic") None [])))
    = Some [Some "Topic"].
Proof. repeat split. Qed.

(** ** C7: what the reader returns *)

Section Reader.

Import XMindParser.

Variable json_loads : bytes -> exn + option JsonDoc.
Variable fromstring : bytes -> exn + Element.

Lemma contains_In (name : string) (names : list string) :
  contains name names = true <-> In name names.
Proof.
  unfold contains. rewrite existsb_exists. split.
  - intros [n [Hin Heq]]. apply String.eqb_eq in Heq. now subst.
  - intros Hin. exists name. split; [exact Hin | apply String.eqb_refl].
Qed.

Lemma contains_not_In (name : string) (names : list string) :
  ~ In name names -> contains name names = false.
Proof.
  intros H. destruct (contains name names) eqn:E; [|reflexivity].
  apply contains_In in E. contradiction.
Qed.

(** C7 (amended): with a [content.json] entry the reader parses it and
    sets the JSON flag; otherwise with a [content.xml] entry it parses
    that and leaves the flag unset; with neither entry it returns [None]
    and prints nothing.  A failure to open the archive or to parse the
    entry also returns [None], after printing a line with the cause: the
    caller gets the same [None] in all these cases. *)
Theorem C7_reader_outcome (xmind_path : string) :
  (forall e,
      parse json_loads fromstring xmind_path (inl e) =
      mkOutcome None false [error_message xmind_path e]) /\
  (forall zip_file,
      let o := parse json_loads fromstring xmind_path (inr zip_file) in
      (In "content.json" (namelist zip_file) ->
       is_json_format o = true /\
       match json_loads (read "content.json" zip_file) with
       | inr doc => returned o = option_map RawJson doc /\ printed o = []
       | inl e =>
           returned o = None /\ printed o = [error_message xmind_path e]
       end) /\
      (~ In "content.json" (namelist zip_file) ->
       In "content.xml" (namelist zip_file) ->
       is_json_format o = false /\
       match fromstring (read "content.xml" zip_file) with
       | inr doc => returned o = Some (RawXml doc) /\ printed o = []
       | inl e =>
           returned o = None /\ printed o = [error_message xmind_path e]
       end) /\
      (~ In "content.json" (namelist zip_file) ->
       ~ In "content.xml" (namelist zip_file) ->
       o = mkOutcome None false [])).
Proof.
  split; [reflexivity|].
  intros zip_file o. subst o. unfold parse.
  split; [|split].
  - intros Hj. apply contains_In in Hj. rewrite Hj.
    destruct (json_loads _); cbn; auto.
  - intros Hj Hx. apply contains_not_In in Hj. apply contains_In in Hx.
    rewrite Hj, Hx. destruct (fromstring _); cbn; auto.
  - intros Hj Hx. apply contains_not_In in Hj. apply contains_not_In in Hx.
    now rewrite Hj, Hx.
Qed.

End Reader.

(** C7 as stated fails: the reader has no error of its own for a missing
    payload entry.  It returns [None] with the flag unset, which is what
    it returns when the payload does not parse, and it prints nothing. *)
Lemma C7_no_distinct_error_counterexample :
  XMindParser.returned
    (XMindParser.parse loads_fails fromstring_fails "a.xmind" no_payload)
  = XMindParser.returned
      (XMindParser.parse loads_fails fromstring_fails "a.xmind" broken_xml)
  /\ XMindParser.is_json_format
       (XMindParser.parse loads_fails fromstring_fails "a.xmind" no_payload)
     = XMindParser.is_json_format
         (XMindParser.parse loads_fails fromstring_fails "a.xmind" broken_xml)
  /\ XMindParser.printed
       (XMindParser.parse loads_fails fromstring_fails "a.xmind" no_payload)
     = [].
Proof. repeat split. Qed.

(** The reader on an archive that holds a [content.json]. *)
Lemma C7_reader_outcome_witness :
  In "content.json" (XMindParser.namelist [("content.json", "[]")]) /\
  XMindParser.is_json_format
    (XMindParser.parse (fun _ => inr (Some (XMindParser.JsonList [])))
                       fromstring_fails "a.xmind"
                       (inr [("content.json", "[]")])) = true.
Proof.
  split; [simpl; auto|].
  apply (proj1 (proj2 (C7_reader_outcome
                         (fun _ => inr (Some (XMindParser.JsonList [])))
                         fromstring_fails "a.xmind")
                      [("content.json", "[]")])).
  simpl; auto.
Defined.

(** ** C8: the XML path has no callouts *)

Example scenario_B_counts :
  option_map (fun doc => (count_kind TopicVertex (generated doc),
                          count_kind CalloutVertex (generated doc),
                          count_kind Connector (generated doc),
                          count_kind DashedConnector (generated doc)))
             (generate (XmlRoot scenario_B))
  = Some (4, 0, 3, 0)%nat.
Proof. reflexivity. Qed.

(** C8: the document converted from an XML root topic has no callout
    vertex and no dashed connector, and the uniform view of an XML topic
    has an empty callout list, at the topic and below it. *)
Theorem C8_xml_has_no_callouts (topic : Element) :
  exists doc,
    generate (XmlRoot topic) = Some doc /\
    count_kind CalloutVertex (generated doc) = O /\
    count_kind DashedConnector (generated doc) = O /\
    json_callout (normalize topic) = [] /\
    callout_count (normalize topic) = O.
Proof.
  eexists. split; [apply generate_spec|].
  rewrite generated_wrap. cbn [root_view].
  rewrite !count_kind_map, emitted_kinds, !emission_order_count.
  cbn [expected_count].
  rewrite normalize_unfold at 3. cbn [json_callout].
  unfold normalize. rewrite xml_view_callout_count. auto.
Qed.

(** ** C9: nothing is written for a failed conversion *)

Section ConvertFileFacts.

Import XMindParser XMindToDrawioConverter.

Variable json_loads : bytes -> exn + option JsonDoc.
Variable fromstring : bytes -> exn + Element.

(** C9: when the reader fails or no root topic is found, [convert_file]
    returns with the output directory unchanged; in every case it returns,
    and what it leaves is either the directory unchanged or the directory
    after one write of the complete document built from the root topic. *)
Theorem C9_failed_conversion_writes_nothing
        (f : xmind_file) (out : output_dir) :
  (conversion_fails json_loads fromstring f ->
   exists log, convert_file json_loads fromstring f out = Some (out, log)) /\
  (exists out' log,
      convert_file json_loads fromstring f out = Some (out', log) /\
      (out' = out \/
       exists root root_topic doc,
         returned (parse json_loads fromstring (name f) (content f))
           = Some root /\
         get_root_topic root = Some root_topic /\
         generate root_topic = Some doc /\
         out' = write (stem f ++ ".drawio") doc out)).
Proof.
  unfold conversion_fails, convert_file.
  destruct (returned (parse json_loads fromstring (name f) (content f)))
    as [root|].
  - destruct (get_root_topic root) as [root_topic|] eqn:Hroot.
    + rewrite generate_spec. split.
      * intros [H|[r [Hr Hn]]]; [discriminate|].
        injection Hr as <-. congruence.
      * do 2 eexists. split; [reflexivity|]. right.
        exists root, root_topic. eexists.
        repeat split; [exact Hroot | apply generate_spec].
    + split; [intros _|]; eauto.
  - split; [intros _|]; eauto.
Qed.

End ConvertFileFacts.

Lemma C9_failed_conversion_writes_nothing_witness :
  exists log,
    XMindToDrawioConverter.convert_file loads_fails fromstring_fails
                                        not_a_zip [] = Some ([], log).
Proof.
  apply (proj1 (C9_failed_conversion_writes_nothing
                  loads_fails fromstring_fails not_a_zip [])).
  left. reflexivity.
Defined.

(** ** C10: flat containment *)

(** C10: every generated cell, whether topic vertex, callout vertex,
    structural connector or dashed connector, has [parent="1"]; the cells
    lie flat in the root list, a vertex carrying only its box and an edge
    only its source and target, which are ids of generated vertices. *)
Theorem C10_generated_cells_in_default_layer (root_topic : RootTopic) :
  exists doc,
    generate root_topic = Some doc /\
    Forall (fun c => attr_parent c = Some "1") (generated doc) /\
    Forall (fun c =>
              match cell_kind c with
              | TopicVertex | CalloutVertex =>
                  attr_source c = None /\ attr_target c = None /\
                  exists x y w h, geometry c = Some (BoxGeometry x y w h)
              | _ =>
                  (exists s, attr_source c = Some s) /\
                  (exists t, attr_target c = Some t) /\
                  geometry c = Some RelativeGeometry
              end) (generated doc) /\
    edges_within (generated doc) (generated doc).
Proof.
  eexists. split; [apply generate_spec|].
  rewrite generated_wrap. split; [|split].
  - eapply Forall_impl; [|apply emitted_shape].
    exact generated_shape_parent.
  - eapply Forall_impl; [|apply emitted_shape].
    exact generated_shape_geometry.
  - apply emitted_edges.
Qed.

(** * Further properties *)

(** ** Bounds on the subtree height *)

Lemma subtree_height_lower (t : JsonTopic) :
  min_y_spacing <= _calculate_subtree_height t.
Proof.
  destruct t as [title attached callout].
  rewrite subtree_height_unfold.
  assert (min_y_spacing <= base_height callout).
  { unfold base_height, callout_spacing, min_y_spacing.
    destruct (truthy callout); lia. }
  destruct (truthy attached); lia.
Qed.

Lemma half_exact (h : Z) : (exists k, h = 10 * k) -> 2 * (h / 2) = h.
Proof.
  intros [k ->]. replace (10 * k) with (5 * k * 2) by lia.
  rewrite Z.div_mul by lia. lia.
Qed.

Lemma subtree_height_half (t : JsonTopic) :
  2 * (_calculate_subtree_height t / 2) = _calculate_subtree_height t.
Proof. apply half_exact, subtree_height_div10. Qed.

Lemma py_sum_heights_half (l : list JsonTopic) :
  2 * (py_sum (map _calculate_subtree_height l) / 2) =
  py_sum (map _calculate_subtree_height l).
Proof.
  apply half_exact, py_sum_div10. rewrite Forall_map.
  apply Forall_forall. intros c _. apply subtree_height_div10.
Qed.

Lemma py_sum_map_of_nat {A} (f : A -> nat) (l : list A) :
  py_sum (map (fun a => Z.of_nat (f a)) l) = Z.of_nat (list_sum (map f l)).
Proof.
  induction l as [|a l IH]; [reflexivity|].
  cbn [map]. rewrite py_sum_cons, IH.
  change (list_sum (f a :: map f l)) with (f a + list_sum (map f l))%nat.
  lia.
Qed.

Lemma py_sum_map_le {A} (f g : A -> Z) (l : list A) :
  Forall (fun a => f a <= g a) l -> py_sum (map f l) <= py_sum (map g l).
Proof.
  induction 1 as [|a l Ha _ IH]; [reflexivity|].
  cbn [map]. rewrite !py_sum_cons. lia.
Qed.

Lemma py_sum_map_scale {A} (k : Z) (f : A -> Z) (l : list A) :
  py_sum (map (fun a => k * f a) l) = k * py_sum (map f l).
Proof.
  induction l as [|a l IH]; cbn [map];
    [rewrite !py_sum_nil | rewrite !py_sum_cons, IH]; lia.
Qed.

Lemma py_sum_map_plus {A} (f g : A -> Z) (l : list A) :
  py_sum (map (fun a => f a + g a) l) =
  py_sum (map f l) + py_sum (map g l).
Proof.
  induction l as [|a l IH]; cbn [map];
    [rewrite !py_sum_nil | rewrite !py_sum_cons, IH]; lia.
Qed.

Lemma leaf_count_pos (t : JsonTopic) : (0 < leaf_count t)%nat.
Proof.
  induction t as [title attached callout IHa _] using JsonTopic_nested_ind.
  cbn [leaf_count]. destruct IHa as [|c rest Hc _]; [lia|].
  cbn [map list_sum fold_right]. lia.
Qed.

(** The height of a subtree is at least 120 per leaf and at least the
    base of its root (120 plus 70 per callout of the root), and at most
    120 per topic plus 70 per callout of the subtree. *)
Theorem subtree_height_bounds (t : JsonTopic) :
  120 * Z.of_nat (leaf_count t) <= _calculate_subtree_height t /\
  120 + 70 * Z.of_nat (List.length (json_callout t))
    <= _calculate_subtree_height t /\
  _calculate_subtree_height t
    <= 120 * Z.of_nat (topic_count t) + 70 * Z.of_nat (callout_count t).
Proof.
  induction t as [title attached callout IHa _] using JsonTopic_nested_ind.
  rewrite subtree_height_unfold, base_height_spec.
  cbn [json_callout topic_count callout_count leaf_count].
  assert (Hb : 120 + 70 * Z.of_nat (List.length callout) =
               if (0 <? List.length callout)%nat
               then 120 + Z.of_nat (List.length callout) * 70 else 120).
  { destruct callout; cbn [List.length Nat.ltb Nat.leb]; lia. }
  rewrite <- Hb. clear Hb.
  destruct attached as [|c rest]; cbn [truthy].
  - cbn [map list_sum fold_right]. lia.
  - set (l := c :: rest) in *.
    assert (Hlo : 120 * Z.of_nat (list_sum (map leaf_count l))
                  <= py_sum (map _calculate_subtree_height l)).
    { rewrite <- py_sum_map_of_nat, <- py_sum_map_scale.
      apply py_sum_map_le. eapply Forall_impl; [|exact IHa].
      cbn beta. intros a Ha. tauto. }
    assert (Hhi : py_sum (map _calculate_subtree_height l)
                  <= 120 * Z.of_nat (list_sum (map topic_count l))
                     + 70 * Z.of_nat (list_sum (map callout_count l))).
    { rewrite <- !py_sum_map_of_nat, <- !py_sum_map_scale, <- py_sum_map_plus.
      apply py_sum_map_le. eapply Forall_impl; [|exact IHa].
      cbn beta. intros a Ha. tauto. }
    lia.
Qed.

(** Without callouts the height is exactly 120 per leaf. *)
Theorem subtree_height_without_callouts (t : JsonTopic) :
  callout_count t = O ->
  _calculate_subtree_height t = 120 * Z.of_nat (leaf_count t).
Proof.
  induction t as [title attached callout IHa _] using JsonTopic_nested_ind.
  cbn [callout_count]. intros H0.
  assert (Hc : callout = []) by (destruct callout; [reflexivity | cbn in H0; lia]).
  assert (Ha0 : list_sum (map callout_count attached) = O) by lia.
  subst callout. rewrite subtree_height_unfold. cbn [leaf_count base_height truthy].
  destruct attached as [|c rest]; [reflexivity|]. cbn [truthy].
  set (l := c :: rest) in *.
  assert (E : py_sum (map _calculate_subtree_height l)
              = 120 * Z.of_nat (list_sum (map leaf_count l))).
  { rewrite <- py_sum_map_of_nat, <- py_sum_map_scale.
    clear H0. induction IHa as [|a l' Ha _ IH]; [reflexivity|].
    change (list_sum (map callout_count (a :: l')))
      with (callout_count a + list_sum (map callout_count l'))%nat in Ha0.
    cbn [map]. rewrite !py_sum_cons, Ha, IH by lia. reflexivity. }
  rewrite E.
  assert (0 < list_sum (map leaf_count l))%nat.
  { subst l. cbn [map list_sum fold_right]. pose proof (leaf_count_pos c). lia. }
  unfold min_y_spacing. lia.
Qed.

(** A tree without callouts: the view of scenario B. *)
Lemma subtree_height_without_callouts_witness :
  callout_count (normalize scenario_B) = O /\
  _calculate_subtree_height (normalize scenario_B) =
  120 * Z.of_nat (leaf_count (normalize scenario_B)).
Proof.
  split; [reflexivity|].
  apply (subtree_height_without_callouts (normalize scenario_B)).
  reflexivity.
Defined.

(** ** Topic boxes do not collide *)

Lemma xml_subtree_height_leaves (topic : Element) (k : nat) :
  _calculate_xml_subtree_height (depth topic + k) topic =
  Some (120 * Z.of_nat (leaf_count (normalize topic))).
Proof.
  rewrite xml_height_enough_fuel. f_equal.
  apply subtree_height_without_callouts.
  unfold normalize. apply xml_view_callout_count.
Qed.

Lemma topic_vertices_app (l1 l2 : list mxCell) :
  topic_vertices (l1 ++ l2) = (topic_vertices l1 ++ topic_vertices l2)%list.
Proof. apply filter_app. Qed.

Lemma topic_vertices_callouts current_id x y l : forall idx n,
  topic_vertices (callout_cells current_id x y l idx n) = [].
Proof.
  induction l as [|k rest IH]; intros idx n; [reflexivity|].
  cbn [callout_cells]. unfold topic_vertices in *. cbn [filter].
  change (cell_kind (callout_cell ?a ?b ?c ?d)) with CalloutVertex.
  change (cell_kind (dashed_cell ?a ?b ?c)) with DashedConnector.
  cbn [kind_eqb]. apply IH.
Qed.

Lemma topic_vertices_emitted title attached callout parent_id x y level n :
  topic_vertices (emitted (JsonTopicObj title attached callout)
                          parent_id x y level n) =
  topic_cell (str n) (get_title title "Topic") level x y
  :: topic_vertices
       (children_cells (str n) x level attached
          (y - py_sum (map _calculate_subtree_height attached) / 2) (n + 1)).
Proof.
  rewrite emitted_unfold. unfold topic_vertices at 1. cbn [filter].
  rewrite topic_cell_kind. cbn [kind_eqb]. f_equal.
  fold (topic_vertices
          (children_cells (str n) x level attached
             (y - py_sum (map _calculate_subtree_height attached) / 2) (n + 1)
           ++ callout_cells (str n) x y callout 0
                (n + 1 + Z.of_nat (children_count attached)))).
  now rewrite topic_vertices_app, topic_vertices_callouts, app_nil_r.
Qed.

Lemma in_band_weaken (x lo hi x0 lo0 hi0 : Z) (c : mxCell) :
  x0 <= x -> lo0 <= lo -> hi <= hi0 ->
  in_band x lo hi c -> in_band x0 lo0 hi0 c.
Proof.
  intros Hx Hlo Hhi [x' [y' [Hg [H1 [H2 H3]]]]].
  exists x', y'. repeat split; try assumption; lia.
Qed.

Lemma separated_bands (x lo mid hi : Z) (a b : mxCell) :
  in_band x lo mid a -> in_band x mid hi b -> separated a b.
Proof.
  intros [xa [ya [Ha [_ [_ Ha2]]]]] [xb [yb [Hb [_ [Hb1 _]]]]].
  unfold separated. rewrite Ha, Hb. right. lia.
Qed.

Lemma ForallOrdPairs_app {A} (R : A -> A -> Prop) (l1 l2 : list A) :
  ForallOrdPairs R l1 -> ForallOrdPairs R l2 ->
  (forall a b, In a l1 -> In b l2 -> R a b) ->
  ForallOrdPairs R (l1 ++ l2).
Proof.
  intros H1 H2 H12. induction H1 as [|a l1 Ha _ IH]; [exact H2|].
  cbn [app]. constructor.
  - apply Forall_app. split; [exact Ha|].
    apply Forall_forall. intros b Hb. apply H12; [now left | exact Hb].
  - apply IH. intros x y Hx Hy. apply H12; [now right | exact Hy].
Qed.

Lemma py_sum_heights_nonneg (l : list JsonTopic) :
  0 <= py_sum (map _calculate_subtree_height l).
Proof.
  induction l as [|a l IH]; cbn [map]; [rewrite py_sum_nil; lia|].
  rewrite py_sum_cons. pose proof (subtree_height_lower a).
  unfold min_y_spacing in *. lia.
Qed.

Lemma children_laid_out current_id x level (l : list JsonTopic) :
  Forall laid_out l ->
  forall current_y n,
    Forall (in_band (x + 250) current_y
                    (current_y + py_sum (map _calculate_subtree_height l)))
           (topic_vertices
              (children_cells current_id x level l current_y n)) /\
    ForallOrdPairs separated
      (topic_vertices (children_cells current_id x level l current_y n)).
Proof.
  induction 1 as [|c rest Hc _ IH]; intros current_y n.
  - split; constructor.
  - cbn [children_cells map]. rewrite py_sum_cons.
    rewrite topic_vertices_app.
    change (topic_vertices (connector_cell ?a ?b ?d :: ?l))
      with (topic_vertices l).
    set (h := _calculate_subtree_height c).
    set (total := py_sum (map _calculate_subtree_height rest)).
    pose proof (subtree_height_half c) as Hh. fold h in Hh.
    pose proof (py_sum_heights_nonneg rest) as Htot. fold total in Htot.
    pose proof (subtree_height_lower c) as Hlow. fold h in Hlow.
    unfold min_y_spacing in Hlow.
    destruct (Hc current_id (x + x_spacing) (current_y + h / 2) (S level) n)
      as [Hband Hsep].
    destruct (IH (current_y + h)
                 (n + Z.of_nat (cell_count c) + 1)) as [Hband' Hsep'].
    fold total in Hband'.
    assert (Hfirst : Forall (in_band (x + 250) current_y (current_y + h))
                       (topic_vertices
                          (emitted c current_id (x + x_spacing)
                                   (current_y + h / 2) (S level) n))).
    { eapply Forall_impl; [|exact Hband].
      intros a. apply in_band_weaken; unfold x_spacing; fold h; lia. }
    split.
    + apply Forall_app. split.
      * eapply Forall_impl; [|exact Hfirst].
        intros a. apply in_band_weaken; lia.
      * eapply Forall_impl; [|exact Hband'].
        intros a. apply in_band_weaken; lia.
    + apply ForallOrdPairs_app; [exact Hsep | exact Hsep' |].
      intros a b Ha Hb.
      rewrite Forall_forall in Hfirst, Hband'.
      exact (separated_bands _ _ _ _ a b (Hfirst a Ha) (Hband' b Hb)).
Qed.

Lemma convert_json_laid_out (t : JsonTopic) : laid_out t.
Proof.
  induction t as [title attached callout IHa _] using JsonTopic_nested_ind.
  intros parent_id x y level n.
  rewrite topic_vertices_emitted.
  set (h := _calculate_subtree_height (JsonTopicObj title attached callout)).
  set (total := py_sum (map _calculate_subtree_height attached)).
  pose proof (subtree_height_half (JsonTopicObj title attached callout)) as Hh.
  pose proof (subtree_height_lower (JsonTopicObj title attached callout))
    as Hlow.
  fold h in Hh, Hlow. unfold min_y_spacing in Hlow.
  pose proof (py_sum_heights_half attached) as Ht. fold total in Ht.
  assert (Hle : attached = [] \/ total <= h).
  { destruct attached as [|c rest]; [now left|]. right.
    subst h total. rewrite subtree_height_unfold. cbn [truthy]. lia. }
  destruct (children_laid_out (str n) x level attached IHa
              (y - total / 2) (n + 1)) as [Hband Hsep].
  fold total in Hband.
  assert (Hkids : Forall (in_band (x + 250) (y - h / 2) (y + h / 2))
                    (topic_vertices
                       (children_cells (str n) x level attached
                                       (y - total / 2) (n + 1)))).
  { destruct Hle as [->|Hle]; [constructor|].
    eapply Forall_impl; [|exact Hband].
    intros a. apply in_band_weaken; lia. }
  split.
  - constructor.
    + exists x, y. repeat split; [lia..].
    + eapply Forall_impl; [|exact Hkids].
      intros a. apply in_band_weaken; lia.
  - constructor; [|exact Hsep].
    eapply Forall_impl; [|exact Hkids].
    intros a [x' [y' [Hg [Hx _]]]].
    unfold separated. cbn [geometry topic_cell]. rewrite Hg. left. lia.
Qed.

Lemma skipn_length_app {A} (l l' : list A) :
  skipn (List.length l) (l ++ l') = l'.
Proof. induction l as [|a l IH]; [reflexivity | exact IH]. Qed.

Lemma appended_json t parent_id x y level st :
  appended st (snd (_convert_json_topic t parent_id x y level st)) =
  emitted t parent_id x y level (cell_id st).
Proof.
  unfold appended. rewrite convert_json_frames. cbn [snd root].
  apply skipn_length_app.
Qed.

Lemma ForallOrdPairs_impl_In {A} (R R' : A -> A -> Prop) (l : list A) :
  (forall a b, In a l -> In b l -> R a b -> R' a b) ->
  ForallOrdPairs R l -> ForallOrdPairs R' l.
Proof.
  intros Himpl H. induction H as [|a l Ha _ IH]; constructor.
  - rewrite Forall_forall in *. intros b Hb.
    apply Himpl; [now left | now right | apply Ha, Hb].
  - apply IH. intros x y Hx Hy. apply Himpl; now right.
Qed.

Lemma separated_disjoint (x lo hi : Z) (a b : mxCell) :
  in_band x lo hi a -> in_band x lo hi b ->
  separated a b -> boxes_disjoint a b.
Proof.
  intros [xa [ya [Ha _]]] [xb [yb [Hb _]]].
  unfold separated, boxes_disjoint. rewrite Ha, Hb. lia.
Qed.

(** Every topic box a call of [_convert_json_topic] at [(x, y)] appends,
    for the topic and all its descendants, lies at or right of [x] and
    within half the subtree height of [y]: its band of 120 around its own
    [y] stays inside the band of the subtree.  The same holds for
    [_convert_xml_topic], which returns given fuel at least the depth. *)
Theorem topic_boxes_within_subtree_band :
  (forall t parent_id x y level st,
      Forall (in_band x (y - _calculate_subtree_height t / 2)
                        (y + _calculate_subtree_height t / 2))
             (topic_vertices
                (appended st
                   (snd (_convert_json_topic t parent_id x y level st))))) /\
  (forall (topic : Element) (k : nat) parent_id x y level st,
      exists id st',
        _convert_xml_topic (depth topic + k) topic parent_id x y level st
          = Some (id, st') /\
        Forall (in_band x (y - xml_height topic / 2)
                          (y + xml_height topic / 2))
               (topic_vertices (appended st st'))).
Proof.
  split.
  - intros. rewrite appended_json. apply convert_json_laid_out.
  - intros e k parent_id x y level st.
    rewrite xml_convert_frames. do 2 eexists. split; [reflexivity|].
    unfold appended. cbn [root]. rewrite skipn_length_app.
    rewrite xml_height_normalize. apply convert_json_laid_out.
Qed.

(** In every converted document any two topic boxes are at least a
    column (250) or a row (120) apart, so their 120 by 60 rectangles never
    meet. *)
Theorem topic_boxes_never_overlap (root_topic : RootTopic) :
  exists doc,
    generate root_topic = Some doc /\
    ForallOrdPairs (fun a b => separated a b /\ boxes_disjoint a b)
                   (topic_vertices (generated doc)).
Proof.
  eexists. split; [apply generate_spec|].
  rewrite generated_wrap.
  destruct (convert_json_laid_out (root_view root_topic) "1" 400 300 0%nat 2)
    as [Hband Hsep].
  eapply ForallOrdPairs_impl_In; [|exact Hsep].
  intros a b Ha Hb Hab. split; [exact Hab|].
  rewrite Forall_forall in Hband.
  exact (separated_disjoint _ _ _ a b (Hband a Ha) (Hband b Hb) Hab).
Qed.

(** ** Topic vertices in pre-order *)

Lemma emitted_preorder (t : JsonTopic) : forall parent_id x y level n,
  map vertex_info (topic_vertices (emitted t parent_id x y level n)) =
  map (expected_info x level) (preorder t level).
Proof.
  induction t as [title attached callout IHa _] using JsonTopic_nested_ind.
  intros parent_id x y level n.
  rewrite topic_vertices_emitted. cbn [map preorder].
  f_equal.
  - unfold vertex_info, expected_info.
    cbn [fst snd attr_value attr_style geometry topic_cell].
    do 2 f_equal. lia.
  - generalize (y - py_sum (map _calculate_subtree_height attached) / 2).
    generalize (n + 1).
    induction IHa as [|c rest Hc _ IH]; intros m cur; [reflexivity|].
    cbn [children_cells flat_map]. rewrite topic_vertices_app, !map_app.
    change (topic_vertices (connector_cell ?a ?b ?d :: ?l))
      with (topic_vertices l).
    rewrite Hc, IH. f_equal.
    apply map_ext. intros [ti d]. unfold expected_info, x_spacing.
    cbn [fst snd]. do 2 f_equal. lia.
Qed.

(** In every converted document the topic vertices are, in document
    order, the topics of the tree in pre-order; the vertex of a topic of
    depth [d] shows its title (or "Topic"), has the style of level [d] and
    stands at [x = 400 + 250 d]. *)
Theorem topic_vertices_in_preorder (root_topic : RootTopic) :
  exists doc,
    generate root_topic = Some doc /\
    map vertex_info (topic_vertices (generated doc)) =
    map (fun entry =>
           (Some (fst entry), Some (_get_style (snd entry)),
            Some (400 + 250 * Z.of_nat (snd entry))))
        (preorder (root_view root_topic) 0).
Proof.
  eexists. split; [apply generate_spec|].
  rewrite generated_wrap, emitted_preorder.
  apply map_ext. intros [ti d]. unfold expected_info. cbn [fst snd].
  do 2 f_equal. lia.
Qed.

(** ** Callouts are leaves *)

Lemma strip_callouts_unfold title attached callout :
  strip_callouts (JsonTopicObj title attached callout) =
  JsonTopicObj title (map strip_callouts attached)
               (map (fun k => JsonTopicObj (json_title k) [] []) callout).
Proof. reflexivity. Qed.

Lemma convert_json_strip (t : JsonTopic) : strip_invariant t.
Proof.
  induction t as [title attached callout IHa _] using JsonTopic_nested_ind.
  assert (Hh : map _calculate_subtree_height (map strip_callouts attached)
               = map _calculate_subtree_height attached).
  { rewrite map_map. apply map_ext_in. intros c Hc.
    rewrite Forall_forall in IHa. apply (IHa c Hc). }
  assert (Hn : children_count (map strip_callouts attached)
               = children_count attached).
  { unfold children_count. rewrite map_map.
    apply (list_sum_map_ext strip_invariant); [exact IHa|].
    intros c [_ [Hc _]]. now rewrite Hc. }
  unfold strip_invariant. rewrite strip_callouts_unfold. split; [|split].
  - rewrite !subtree_height_unfold, Hh, truthy_map.
    unfold base_height. now rewrite truthy_map, length_map.
  - cbn [cell_count]. fold (children_count (map strip_callouts attached)).
    fold (children_count attached). now rewrite Hn, length_map.
  - intros parent_id x y level n.
    rewrite !emitted_unfold, Hh, Hn. cbn [get_title]. do 2 f_equal.
    + generalize (y - py_sum (map _calculate_subtree_height attached) / 2).
      generalize (n + 1). clear Hh Hn.
      induction IHa as [|c rest [Hc1 [Hc2 Hc3]] _ IH]; intros m cur;
        [reflexivity|].
      cbn [map children_cells]. now rewrite Hc1, Hc2, Hc3, IH.
    + generalize 0. generalize (n + 1 + Z.of_nat (children_count attached)).
      induction callout as [|k rest IH]; intros m idx; [reflexivity|].
      cbn [map callout_cells json_title]. now rewrite IH.
Qed.

(** What lies below a callout is never read: removing the attached
    children and the callouts of every callout of a JSON tree changes
    neither the subtree height nor the converted document. *)
Theorem callouts_are_leaves (t : JsonTopic) :
  _calculate_subtree_height (strip_callouts t) = _calculate_subtree_height t /\
  generate (JsonRoot (strip_callouts t)) = generate (JsonRoot t).
Proof.
  destruct (convert_json_strip t) as [Hh [_ He]].
  split; [exact Hh|].
  rewrite !generate_spec. cbn [root_view]. now rewrite He.
Qed.

(** ** The edges form a tree over the vertices *)

Lemma vertices_app (l1 l2 : list mxCell) :
  vertices (l1 ++ l2) = (vertices l1 ++ vertices l2)%list.
Proof. apply filter_app. Qed.

Lemma edges_app (l1 l2 : list mxCell) :
  edges (l1 ++ l2) = (edges l1 ++ edges l2)%list.
Proof. apply filter_app. Qed.

Lemma callout_cells_targets current_id x y l : forall idx n,
  map attr_target (edges (callout_cells current_id x y l idx n)) =
  map Some (map attr_id (vertices (callout_cells current_id x y l idx n))).
Proof.
  induction l as [|k rest IH]; intros idx n; [reflexivity|].
  cbn [callout_cells]. unfold edges, vertices in *. cbn [filter].
  change (cell_kind (callout_cell ?a ?b ?c ?d)) with CalloutVertex.
  change (cell_kind (dashed_cell ?a ?b ?c)) with DashedConnector.
  cbn [map]. now rewrite IH.
Qed.

Lemma children_tree_shaped current_id x level (l : list JsonTopic) :
  Forall tree_shaped l ->
  forall current_y n,
    Permutation
      (map attr_target
           (edges (children_cells current_id x level l current_y n)))
      (map Some
           (map attr_id
                (vertices (children_cells current_id x level l current_y n)))).
Proof.
  induction 1 as [|c rest Hc _ IH]; intros current_y n; [constructor|].
  cbn [children_cells]. rewrite edges_app, vertices_app, !map_app.
  change (edges (connector_cell ?a ?b ?d :: ?l))
    with (connector_cell a b d :: edges l).
  change (vertices (connector_cell ?a ?b ?d :: ?l)) with (vertices l).
  cbn [map attr_target connector_cell].
  destruct (Hc current_id (x + x_spacing)
               (current_y + _calculate_subtree_height c / 2) (S level) n)
    as [others [Hv He]].
  rewrite Hv. cbn [map app].
  eapply Permutation_trans; [apply Permutation_sym, Permutation_middle|].
  constructor. apply Permutation_app; [exact He | apply IH].
Qed.

Lemma convert_json_tree_shaped (t : JsonTopic) : tree_shaped t.
Proof.
  induction t as [title attached callout IHa _] using JsonTopic_nested_ind.
  intros parent_id x y level n.
  rewrite emitted_unfold.
  set (kids := children_cells (str n) x level attached
                 (y - py_sum (map _calculate_subtree_height attached) / 2)
                 (n + 1)).
  set (notes := callout_cells (str n) x y callout 0
                  (n + 1 + Z.of_nat (children_count attached))).
  set (v0 := topic_cell (str n) (get_title title "Topic") level x y).
  assert (Hv : vertices (v0 :: kids ++ notes)
               = v0 :: (vertices kids ++ vertices notes)%list).
  { unfold vertices at 1. cbn [filter]. subst v0. rewrite topic_cell_kind.
    f_equal. apply filter_app. }
  assert (He : edges (v0 :: kids ++ notes)
               = (edges kids ++ edges notes)%list).
  { unfold edges at 1. cbn [filter]. subst v0. rewrite topic_cell_kind.
    apply filter_app. }
  exists (map attr_id (vertices kids ++ vertices notes)).
  rewrite Hv, He. split; [reflexivity|].
  rewrite !map_app. subst notes. rewrite callout_cells_targets.
  apply Permutation_app; [|apply Permutation_refl].
  apply children_tree_shaped. exact IHa.
Qed.

(** In every converted document the first vertex is the root topic, with
    id "2", and the targets of the edges are exactly the other vertices,
    each once: every vertex but the root has one incoming edge, the root
    has none, and there is one edge less than there are vertices. *)
Theorem edges_form_a_tree (root_topic : RootTopic) :
  exists doc others,
    generate root_topic = Some doc /\
    map attr_id (vertices (generated doc)) = "2" :: others /\
    Permutation (map attr_target (edges (generated doc))) (map Some others) /\
    S (List.length (edges (generated doc))) =
      List.length (vertices (generated doc)).
Proof.
  destruct (convert_json_tree_shaped (root_view root_topic) "1" 400 300 0%nat 2)
    as [others [Hv He]].
  eexists. exists others. split; [apply generate_spec|].
  rewrite generated_wrap. split; [exact Hv|]. split; [exact He|].
  apply Permutation_length in He.
  apply (f_equal (@List.length string)) in Hv.
  rewrite !length_map in *. cbn [List.length] in Hv. lia.
Qed.

(** ** Edges come after their endpoints *)

Lemma cell_count_pos (t : JsonTopic) : (0 < cell_count t)%nat.
Proof. destruct t. cbn [cell_count]. lia. Qed.

Lemma edge_ordered_weaken (n n' : Z) (c : mxCell) :
  n' <= n -> edge_ordered n c -> edge_ordered n' c.
Proof.
  intros Hn [s [t [e H]]]. exists s, t, e. intuition lia.
Qed.

Lemma callout_cells_ordered (n0 : Z) x y l : forall idx n,
  n0 < n ->
  Forall (edge_ordered n0) (edges (callout_cells (str n0) x y l idx n)).
Proof.
  induction l as [|k rest IH]; intros idx n Hn; [constructor|].
  cbn [callout_cells]. unfold edges in *. cbn [filter].
  change (cell_kind (callout_cell ?a ?b ?c ?d)) with CalloutVertex.
  change (cell_kind (dashed_cell ?a ?b ?c)) with DashedConnector.
  cbn iota. constructor.
  - exists n0, n, (n + 1). cbn [attr_id attr_source attr_target dashed_cell].
    repeat split; lia.
  - apply IH. lia.
Qed.

Lemma children_cells_ordered (n0 : Z) x level (l : list JsonTopic) :
  Forall (fun c => forall parent_id cx cy lvl n,
              Forall (edge_ordered n)
                     (edges (emitted c parent_id cx cy lvl n))) l ->
  forall current_y n,
    n0 < n ->
    Forall (edge_ordered n0)
           (edges (children_cells (str n0) x level l current_y n)).
Proof.
  induction 1 as [|c rest Hc _ IH]; intros current_y n Hn; [constructor|].
  cbn [children_cells]. rewrite edges_app.
  change (edges (connector_cell ?a ?b ?d :: ?l))
    with (connector_cell a b d :: edges l).
  pose proof (cell_count_pos c) as Hpos.
  apply Forall_app. split.
  - eapply Forall_impl; [|apply Hc].
    intros a. apply edge_ordered_weaken. lia.
  - constructor.
    + exists n0, n, (n + Z.of_nat (cell_count c)).
      cbn [attr_id attr_source attr_target connector_cell].
      repeat split; lia.
    + apply IH. lia.
Qed.

Lemma emitted_ordered (t : JsonTopic) : forall parent_id x y level n,
  Forall (edge_ordered n) (edges (emitted t parent_id x y level n)).
Proof.
  induction t as [title attached callout IHa _] using JsonTopic_nested_ind.
  intros parent_id x y level n.
  rewrite emitted_unfold.
  set (kids := children_cells (str n) x level attached
                 (y - py_sum (map _calculate_subtree_height attached) / 2)
                 (n + 1)).
  set (notes := callout_cells (str n) x y callout 0
                  (n + 1 + Z.of_nat (children_count attached))).
  assert (He : edges (topic_cell (str n) (get_title title "Topic") level x y
                      :: kids ++ notes)
               = (edges kids ++ edges notes)%list).
  { unfold edges at 1. cbn [filter]. rewrite topic_cell_kind.
    apply filter_app. }
  rewrite He. apply Forall_app. split.
  - apply children_cells_ordered; [exact IHa | lia].
  - apply callout_cells_ordered. lia.
Qed.

(** In every converted document each edge has ids [s < t < e] for its
    source, its target and itself, with [s] at least 2: an edge points
    from a cell allocated earlier to one allocated later and is itself
    allocated after both, so it never refers to a cell that follows it. *)
Theorem edges_follow_their_endpoints (root_topic : RootTopic) :
  exists doc,
    generate root_topic = Some doc /\
    Forall (edge_ordered 2) (edges (generated doc)).
Proof.
  eexists. split; [apply generate_spec|].
  rewrite generated_wrap. apply emitted_ordered.
Qed.

(** ** A generator used again *)

Lemma create_drawio_xml_spec (n : Z) (root_topic : RootTopic) :
  create_drawio_xml n (Some root_topic) =
  Some (wrap ([default_cell_0; default_cell_1]
              ++ emitted (root_view root_topic) "1" 400 300 0 n)%list).
Proof.
  unfold create_drawio_xml.
  destruct root_topic as [t|e]; cbn [root_view].
  - rewrite convert_json_frames. reflexivity.
  - rewrite xml_convert_sim by lia. fold (normalize e).
    rewrite convert_json_frames. reflexivity.
Qed.

(** [create_drawio_xml] on a generator whose counter has already
    advanced to [n], as after earlier documents, still gives a document
    without duplicate ids: the generated ids are [n], [n + 1], ... and
    none is "0" or "1". *)
Theorem reused_generator_keeps_ids_unique (n : Z) (root_topic : RootTopic) :
  2 <= n ->
  exists doc,
    create_drawio_xml n (Some root_topic) = Some doc /\
    map attr_id (generated doc) =
      map str (counter_from n (List.length (generated doc))) /\
    NoDup (map attr_id (cells doc)).
Proof.
  intros Hn. eexists. split; [apply create_drawio_xml_spec|].
  rewrite generated_wrap. cbn [cells wrap]. split.
  - rewrite emitted_length. apply emitted_ids.
  - rewrite map_app, emitted_ids.
    change (map attr_id [default_cell_0; default_cell_1]
            ++ map str (counter_from n (cell_count (root_view root_topic))))%list
      with (map str (0 :: 1 :: counter_from n
                                 (cell_count (root_view root_topic)))).
    apply Injective_map_NoDup; [intros a b; apply str_inj|].
    constructor; [|constructor; [|apply counter_from_NoDup]].
    + intros [H|H]; [discriminate|]. apply counter_from_In in H. lia.
    + intros H. apply counter_from_In in H. lia.
Qed.

Lemma reused_generator_keeps_ids_unique_witness :
  exists doc,
    create_drawio_xml 9 (Some (JsonRoot child_and_callout)) = Some doc /\
    map attr_id (generated doc) =
      map str (counter_from 9 (List.length (generated doc))) /\
    NoDup (map attr_id (cells doc)).
Proof.
  apply (reused_generator_keeps_ids_unique 9 (JsonRoot child_and_callout)).
  lia.
Defined.

(** ** The reader looks at two entries only *)

Section ArchiveFrame.

Import XMindParser.

Variable json_loads : bytes -> exn + option JsonDoc.
Variable fromstring : bytes -> exn + Element.

Lemma find_filter {A} (p q : A -> bool) (l : list A) :
  (forall a, q a = true -> p a = true) ->
  List.find q (filter p l) = List.find q l.
Proof.
  intros Hqp. induction l as [|a l IH]; [reflexivity|].
  cbn [filter List.find]. destruct (q a) eqn:Hq.
  - rewrite (Hqp a Hq). cbn [List.find]. now rewrite Hq.
  - destruct (p a); [cbn [List.find]; rewrite Hq|]; exact IH.
Qed.

Lemma read_filter (p : string * bytes -> bool) (name : string)
      (zip_file : list (string * bytes)) :
  (forall e, String.eqb (fst e) name = true -> p e = true) ->
  read name (filter p zip_file) = read name zip_file.
Proof.
  intros Hp. unfold read. rewrite <- filter_rev.
  now rewrite find_filter.
Qed.

Lemma contains_filter (p : string * bytes -> bool) (name : string)
      (zip_file : list (string * bytes)) :
  (forall e, String.eqb (fst e) name = true -> p e = true) ->
  contains name (namelist (filter p zip_file)) =
  contains name (namelist zip_file).
Proof.
  intros Hp. unfold contains, namelist.
  induction zip_file as [|e l IH]; [reflexivity|].
  cbn [filter map existsb]. destruct (String.eqb name (fst e)) eqn:He.
  - rewrite String.eqb_sym in He. rewrite (Hp e He).
    cbn [map existsb]. rewrite String.eqb_sym in He. now rewrite He.
  - destruct (p e); [cbn [map existsb]; rewrite He|]; exact IH.
Qed.

(** What [parse] returns, sets and prints depends on the archive only
    through its [content.json] and [content.xml] entries: every other
    entry can be removed without changing it. *)
Theorem parse_reads_only_payload_entries
        (xmind_path : string) (zip_file : list (string * bytes)) :
  parse json_loads fromstring xmind_path (inr (payload_entries zip_file)) =
  parse json_loads fromstring xmind_path (inr zip_file).
Proof.
  unfold parse, payload_entries.
  rewrite !contains_filter, !read_filter; try reflexivity;
    intros e He; rewrite He; auto using orb_true_r.
Qed.

(** When the archive has a [content.json], nothing else in it matters,
    a [content.xml] included: the reader does not fall back to the XML
    entry, even when the JSON one does not parse. *)
Theorem json_entry_takes_precedence
        (xmind_path : string) (zip_file : list (string * bytes)) :
  In "content.json" (namelist zip_file) ->
  parse json_loads fromstring xmind_path (inr (json_entries zip_file)) =
  parse json_loads fromstring xmind_path (inr zip_file).
Proof.
  intros Hin. unfold parse, json_entries.
  rewrite contains_filter, read_filter by (intros e He; exact He).
  apply contains_In in Hin. now rewrite Hin.
Qed.

End ArchiveFrame.

(** An archive with both payload entries, the JSON one broken. *)
Lemma json_entry_takes_precedence_witness :
  In "content.json"
     (XMindParser.namelist [("content.xml", "<xmap-content/>");
                            ("content.json", "[")]) /\
  XMindParser.parse loads_fails fromstring_fails "a.xmind"
                    (inr (json_entries [("content.xml", "<xmap-content/>");
                                        ("content.json", "[")])) =
  XMindParser.parse loads_fails fromstring_fails "a.xmind"
                    (inr [("content.xml", "<xmap-content/>");
                          ("content.json", "[")]).
Proof.
  split; [simpl; auto|].
  apply (json_entry_takes_precedence loads_fails fromstring_fails).
  simpl; auto.
Defined.

(** ** The batch *)

Section Batch.

Import XMindParser XMindToDrawioConverter.

Variable json_loads : bytes -> exn + option JsonDoc.
Variable fromstring : bytes -> exn + Element.









(** With no input file the batch reports it and leaves the output
    directory as it is. *)
Lemma convert_all_empty (input_dir : string) (out : output_dir) :
  exists log,
    convert_all json_loads fromstring input_dir [] out = Some (out, log).
Proof. cbn. eauto. Qed.

End Batch.


(** ** The checks of the test suite on converted documents *)

Lemma str_nonempty (n : Z) : str n <> "".
Proof.
  unfold str. intros H.
  pose proof (NilEmpty.isi (Z.to_int n)) as Hisi. rewrite H in Hisi.
  cbn in Hisi. injection Hisi as Hn.
  apply (f_equal Z.of_int) in Hn. rewrite DecimalZ.of_to in Hn.
  cbn in Hn. subst n. discriminate.
Qed.

Lemma shape_is_edge (c : mxCell) :
  generated_shape c ->
  match attr_edge c with Some s => String.eqb s "1" | None => false end =
  match cell_kind c with Connector | DashedConnector => true | _ => false end.
Proof. destruct 1; try rewrite topic_cell_kind; reflexivity. Qed.

Lemma shape_is_vertex (c : mxCell) :
  generated_shape c ->
  match attr_vertex c with Some s => String.eqb s "1" | None => false end =
  match cell_kind c with TopicVertex | CalloutVertex => true | _ => false end.
Proof. destruct 1; try rewrite topic_cell_kind; reflexivity. Qed.

Lemma find_edges_wrap (t : JsonTopic) parent_id x y level n :
  ConverterTests.find_edges
    (wrap ([default_cell_0; default_cell_1]
           ++ emitted t parent_id x y level n)%list) =
  edges (emitted t parent_id x y level n).
Proof.
  unfold ConverterTests.find_edges, edges. cbn [cells wrap app filter].
  cbn [attr_edge default_cell_0 default_cell_1].
  apply filter_ext_in. intros c Hc. apply shape_is_edge.
  pose proof (emitted_shape t parent_id x y level n) as Hs.
  rewrite Forall_forall in Hs. now apply Hs.
Qed.

Lemma find_vertices_wrap (t : JsonTopic) parent_id x y level n :
  ConverterTests.find_vertices
    (wrap ([default_cell_0; default_cell_1]
           ++ emitted t parent_id x y level n)%list) =
  vertices (emitted t parent_id x y level n).
Proof.
  unfold ConverterTests.find_vertices, vertices. cbn [cells wrap app filter].
  cbn [attr_vertex default_cell_0 default_cell_1].
  apply filter_ext_in. intros c Hc. apply shape_is_vertex.
  pose proof (emitted_shape t parent_id x y level n) as Hs.
  rewrite Forall_forall in Hs. now apply Hs.
Qed.

Lemma filter_nil_Forall {A} (p : A -> bool) (l : list A) :
  Forall (fun a => p a = false) l -> filter p l = [].
Proof.
  induction 1 as [|a l Ha _ IH]; [reflexivity|].
  cbn [filter]. now rewrite Ha.
Qed.

(** Every converted document passes [test_connectors_present]: it has
    an edge as soon as it has two vertices, and every edge has a non-empty
    source and target. *)
Theorem converted_documents_pass_connector_test (root_topic : RootTopic) :
  exists doc,
    generate root_topic = Some doc /\
    ConverterTests.test_connectors_present doc = true.
Proof.
  eexists. split; [apply generate_spec|].
  unfold ConverterTests.test_connectors_present.
  rewrite find_edges_wrap, find_vertices_wrap.
  set (t := root_view root_topic).
  destruct (convert_json_tree_shaped t "1" 400 300 0%nat 2)
    as [others [Hv He]].
  apply Permutation_length in He.
  apply (f_equal (@List.length string)) in Hv.
  rewrite !length_map in *. cbn [List.length] in Hv.
  assert (Hguard : Nat.eqb (List.length (edges (emitted t "1" 400 300 0 2))) 0
                   && Nat.ltb 2 (List.length
                                   (vertices (emitted t "1" 400 300 0 2)))
                   = false).
  { destruct (Nat.eqb_spec
                (List.length (edges (emitted t "1" 400 300 0 2))) 0)
      as [E|E]; [|reflexivity].
    cbn [andb]. apply Nat.ltb_ge. lia. }
  rewrite Hguard.
  rewrite filter_nil_Forall; [reflexivity|].
  eapply Forall_impl; [|apply (emitted_ordered t "1" 400 300 0%nat 2)].
  intros c [s [tg [e [_ [Hs [Ht _]]]]]]. rewrite Hs, Ht.
  cbn [ConverterTests.falsy].
  pose proof (str_nonempty s) as H1. pose proof (str_nonempty tg) as H2.
  apply String.eqb_neq in H1, H2. now rewrite H1, H2.
Qed.

Lemma vertices_without_callouts (l : list mxCell) :
  count_kind CalloutVertex l = O -> vertices l = topic_vertices l.
Proof.
  unfold count_kind, vertices, topic_vertices.
  induction l as [|c l IH]; [reflexivity|].
  cbn [filter]. destruct (cell_kind c); cbn [kind_eqb List.length];
    intros H; try discriminate; now rewrite IH.
Qed.

Lemma not_reported (x lo hi : Z) (a b : mxCell) :
  in_band x lo hi a -> in_band x lo hi b -> separated a b ->
  forall ba bb,
    ConverterTests.box a = Some ba -> ConverterTests.box b = Some bb ->
    ConverterTests.reported ba bb = false.
Proof.
  intros [xa [ya [Ha _]]] [xb [yb [Hb _]]] Hsep ba bb.
  unfold ConverterTests.box, separated in *. rewrite Ha, Hb in *.
  intros [= <-] [= <-]. unfold ConverterTests.reported.
  destruct Hsep as [H|H].
  - replace (2 * Z.abs (xa - xb) <? 120 + 120) with false
      by (symmetry; apply Z.ltb_ge; lia).
    reflexivity.
  - replace (2 * Z.abs (ya - yb) <? 60 + 60) with false
      by (symmetry; apply Z.ltb_ge; lia).
    now rewrite andb_false_r.
Qed.

Lemma overlaps_nil (x lo hi : Z) (l : list mxCell) :
  Forall (in_band x lo hi) l -> ForallOrdPairs separated l ->
  ConverterTests.overlaps
    (flat_map (fun c => match ConverterTests.box c with
                        | Some b => [b]
                        | None => []
                        end) l) = [].
Proof.
  intros Hband Hsep.
  induction Hsep as [|a l Ha _ IH]; [reflexivity|].
  inversion Hband as [|a' l' Hba Hbl]; subst.
  cbn [flat_map]. destruct Hba as [xa [ya [Hga Hrest]]].
  unfold ConverterTests.box at 1. rewrite Hga. cbn [app ConverterTests.overlaps].
  rewrite (IH Hbl), app_nil_r.
  rewrite filter_nil_Forall; [reflexivity|].
  apply Forall_forall. intros bb Hbb.
  apply in_flat_map in Hbb. destruct Hbb as [c [Hc Hbox]].
  rewrite Forall_forall in Ha, Hbl.
  destruct (ConverterTests.box c) as [bc|] eqn:Ec; [|contradiction].
  destruct Hbox as [<-|[]].
  apply (not_reported x lo hi a c); auto.
  - exists xa, ya. auto.
  - unfold ConverterTests.box. now rewrite Hga.
Qed.

(** A document converted from a tree without callouts, and so every
    document converted from an XML source, passes
    [test_no_overlapping_cells]. *)
Theorem documents_without_callouts_pass_overlap_test
        (root_topic : RootTopic) :
  callout_count (root_view root_topic) = O ->
  exists doc,
    generate root_topic = Some doc /\
    ConverterTests.test_no_overlapping_cells doc = true.
Proof.
  intros Hcall. eexists. split; [apply generate_spec|].
  unfold ConverterTests.test_no_overlapping_cells, ConverterTests.boxes.
  rewrite find_vertices_wrap.
  rewrite vertices_without_callouts
    by (rewrite count_kind_map, emitted_kinds, emission_order_count;
        exact Hcall).
  destruct (convert_json_laid_out (root_view root_topic) "1" 400 300 0%nat 2)
    as [Hband Hsep].
  now rewrite (overlaps_nil _ _ _ _ Hband Hsep).
Qed.

Lemma documents_without_callouts_pass_overlap_test_witness :
  callout_count (root_view (XmlRoot scenario_B)) = O /\
  exists doc,
    generate (XmlRoot scenario_B) = Some doc /\
    ConverterTests.test_no_overlapping_cells doc = true.
Proof.
  split; [reflexivity|].
  apply (documents_without_callouts_pass_overlap_test (XmlRoot scenario_B)).
  reflexivity.
Defined.

(** With callouts the check can fail: the third callout of a topic
    lands on the sibling above it. *)
Example overlap_test_fails_with_callouts :
  option_map (fun doc => (ConverterTests.test_no_overlapping_cells doc,
                          ConverterTests.overlaps (ConverterTests.boxes doc)))
             (generate (JsonRoot three_callouts))
  = Some (false, [((650, 135, 120, 60), (600, 140, 200, 60))]).
Proof. reflexivity. Qed.

Lemma find_duplicates_NoDup (ids : list string) :
  NoDup ids ->
  forall seen duplicates,
    (forall i, In i ids -> ~ In i seen) ->
    ConverterTests.find_duplicates ids seen duplicates = duplicates.
Proof.
  induction 1 as [|i ids Hi _ IH]; intros seen duplicates Hseen;
    [reflexivity|].
  cbn [ConverterTests.find_duplicates].
  replace (existsb (String.eqb i) seen) with false.
  - apply IH. intros j Hj [<-|Hs]; [contradiction|].
    apply (Hseen j); [now right | exact Hs].
  - symmetry. apply not_true_is_false. intros E.
    apply existsb_exists in E. destruct E as [j [Hj E]].
    apply String.eqb_eq in E. subst j.
    apply (Hseen i); [now left | exact Hj].
Qed.

(** Every converted document passes [test_no_duplicate_ids] and
    [test_reserved_ids]. *)
Theorem converted_documents_pass_id_tests (root_topic : RootTopic) :
  exists doc,
    generate root_topic = Some doc /\
    ConverterTests.test_no_duplicate_ids doc = true /\
    ConverterTests.test_reserved_ids doc = true.
Proof.
  eexists. split; [apply generate_spec|].
  set (t := root_view root_topic).
  assert (Hgen : forall v, v = 0 \/ v = 1 ->
            Forall (fun c => String.eqb (attr_id c) (str v) = false)
                   (emitted t "1" 400 300 0 2)).
  { intros v Hv. apply Forall_forall. intros c Hc.
    apply emitted_id_range in Hc. destruct Hc as [i [Hi ->]].
    apply String.eqb_neq. intros E. apply str_inj in E. lia. }
  split.
  - unfold ConverterTests.test_no_duplicate_ids. cbn [cells wrap].
    rewrite find_duplicates_NoDup; [reflexivity | | intros i _ []].
    rewrite map_app, emitted_ids.
    change (map attr_id [default_cell_0; default_cell_1]
            ++ map str (counter_from 2 (cell_count t)))%list
      with (map str (0 :: 1 :: counter_from 2 (cell_count t))).
    apply Injective_map_NoDup; [intros a b; apply str_inj|].
    constructor; [|constructor; [|apply counter_from_NoDup]].
    + intros [H|H]; [discriminate|]. apply counter_from_In in H. lia.
    + intros H. apply counter_from_In in H. lia.
  - unfold ConverterTests.test_reserved_ids. cbn [cells wrap app filter].
    cbn [attr_id default_cell_0 default_cell_1 String.eqb Ascii.eqb
         Bool.eqb andb].
    assert (H0 : Forall (fun c => String.eqb (attr_id c) "0" = false)
                        (emitted t "1" 400 300 0 2))
      by exact (Hgen 0 (or_introl eq_refl)).
    assert (H1 : Forall (fun c => String.eqb (attr_id c) "1" = false)
                        (emitted t "1" 400 300 0 2))
      by exact (Hgen 1 (or_intror eq_refl)).
    rewrite (filter_nil_Forall _ _ H0), (filter_nil_Forall _ _ H1).
    reflexivity.
Qed.
